(** * Server-Sent-Events streaming helper: [src/helper/streaming/sse.ts]
    and the bundle-size report: [scripts/analyze-bundle-size.cjs]

    A shallow embedding of [SSEStreamingApi.writeSSE], of the supervisor
    [run] and of the abort listener installed by [streamSSE], together with
    the properties of the wire format and of the supervisor's error paths;
    and of [formatBytes], [analyzeDist] and [identifyOptimizations] of the
    report script, over an explicit file system.

    JavaScript strings are modelled by [string]; the only character the
    code inspects is the line feed.  A [number] in the [retry] field is
    modelled by an integer [Z]: for integer-valued Numbers in the safe range
    (magnitude at most 2^53 - 1) [Number::toString] is the plain decimal
    numeral, which is what [Number_toString] computes. *)

From Stdlib Require Import Bool List ZArith Lia Ascii String.
From Stdlib Require Import Decimal DecimalString DecimalZ.
From Stdlib Require Import Sorted Permutation.
Import ListNotations.

Local Open Scope list_scope.
Local Open Scope string_scope.

(** ** JavaScript built-ins used by the source *)

Module Js.

(** The line feed, written ['\n'] in the source. *)
Definition LF : ascii := ascii_of_nat 10.
Definition nl : string := String LF EmptyString.

(** [String.prototype.includes] for a one-character needle. *)
Fixpoint includes (s : string) (c : ascii) : bool :=
  match s with
  | EmptyString => false
  | String a rest => Ascii.eqb a c || includes rest c
  end.

(** [String.prototype.split] for a one-character separator: a string with
    k separators yields k+1 pieces, the empty string yields one empty
    piece. *)
Fixpoint split (s : string) (sep : ascii) : list string :=
  match s with
  | EmptyString => [EmptyString]
  | String a rest =>
      if Ascii.eqb a sep then EmptyString :: split rest sep
      else match split rest sep with
           | piece :: pieces => String a piece :: pieces
           | [] => [String a EmptyString]
           end
  end.

(** Truthiness of an optional string property: [undefined] and [''] are
    falsy. *)
Definition truthy_string (o : option string) : bool :=
  match o with
  | Some s => negb (String.eqb s EmptyString)
  | None => false
  end.

(** Truthiness of an optional integer-valued number property: [undefined]
    and [0] are falsy. *)
Definition truthy_number (o : option Z) : bool :=
  match o with
  | Some n => negb (Z.eqb n 0)
  | None => false
  end.

(** [Number.isSafeInteger] on an integer. *)
Definition isSafeInteger (n : Z) : bool :=
  (Z.abs n <=? 2 ^ 53 - 1)%Z.

(** [Number::toString] (radix 10) of an integer-valued number: an optional
    minus sign followed by the decimal digits. *)
Definition Number_toString (n : Z) : string :=
  NilZero.string_of_int (Z.to_int n).

(** Interpolation [`${v}`] of an optional property inside a branch guarded
    by its truthiness. *)
Definition interp_string (o : option string) : string :=
  match o with Some s => s | None => "undefined" end.

Definition interp_number (o : option Z) : string :=
  match o with Some n => Number_toString n | None => "undefined" end.

End Js.

(** ** Wire-format vocabulary used to state the properties *)

(** Number of line feeds embedded in a string. *)
Fixpoint count_newlines (s : string) : nat :=
  match s with
  | EmptyString => 0
  | String a rest => (if Ascii.eqb a Js.LF then 1 else 0) + count_newlines rest
  end.

(** A string is a decimal numeral when it is non-empty and made of the
    digits 0 to 9 only. *)
Definition is_digit (a : ascii) : bool :=
  (48 <=? nat_of_ascii a)%nat && (nat_of_ascii a <=? 57)%nat.

Fixpoint all_digits (s : string) : bool :=
  match s with
  | EmptyString => true
  | String a rest => is_digit a && all_digits rest
  end.

(** Value of a string of digits read in base ten, most significant digit
    first. *)
Fixpoint decimal_value_from (acc : Z) (s : string) : Z :=
  match s with
  | EmptyString => acc
  | String a rest =>
      decimal_value_from (10 * acc + (Z.of_nat (nat_of_ascii a) - 48))%Z rest
  end.

Definition decimal_value (s : string) : Z := decimal_value_from 0%Z s.

(** A numeral of several digits does not start with the digit 0. *)
Definition no_leading_zero (s : string) : bool :=
  match s with
  | String a (String _ _) => negb (Ascii.eqb a "0")
  | _ => true
  end.

Definition is_decimal_numeral_of (s : string) (n : Z) : Prop :=
  s <> EmptyString /\ all_digits s = true /\ no_leading_zero s = true
  /\ decimal_value s = n.

(** ** The message and its serialisation *)

(** A settled promise: fulfilled with a value or rejected with a reason.
    Thrown values are either instances of [Error], carrying their
    [message], or anything else. *)
Inductive JsValue : Type :=
| JsError (message : string)
| JsOther (repr : string).

Inductive Completion (A : Type) : Type :=
| Normal (a : A)
| Throw (v : JsValue).
Arguments Normal {A} a.
Arguments Throw {A} v.

(** [data: string | Promise<string>] *)
Inductive SSEData : Type :=
| DataString (s : string)
| DataPromise (settled : Completion string).

(** [interface SSEMessage] *)
Record SSEMessage : Type := mkSSEMessage {
  data : SSEData;
  event : option string;
  id : option string;
  retry : option Z
}.

(** Lines 23 to 52 of [writeSSE]: the frame accumulated in the local
    variable [sseData], as a function of the message and of its resolved
    data. *)
Definition sseData (message : SSEMessage) (dataStr : string) : string :=
  let sseData := EmptyString in
  let sseData :=
    if Js.truthy_string (event message)
    then sseData ++ "event: " ++ Js.interp_string (event message) ++ Js.nl
    else sseData in
  let sseData :=
    if Js.includes dataStr Js.LF
    then
      let lines := Js.split dataStr Js.LF in
      fold_left (fun acc line => acc ++ "data: " ++ line ++ Js.nl) lines sseData
    else sseData ++ "data: " ++ dataStr ++ Js.nl in
  let sseData :=
    if Js.truthy_string (id message)
    then sseData ++ "id: " ++ Js.interp_string (id message) ++ Js.nl
    else sseData in
  let sseData :=
    if Js.truthy_number (retry message)
    then sseData ++ "retry: " ++ Js.interp_number (retry message) ++ Js.nl
    else sseData in
  sseData ++ Js.nl.

(** The frame as the specification lays it out, field by field. *)
Definition event_line (message : SSEMessage) : string :=
  match event message with
  | Some e => if String.eqb e EmptyString then EmptyString else "event: " ++ e ++ Js.nl
  | None => EmptyString
  end.

Definition data_lines (dataStr : string) : list string :=
  map (fun line => "data: " ++ line ++ Js.nl) (Js.split dataStr Js.LF).

Definition id_line (message : SSEMessage) : string :=
  match id message with
  | Some i => if String.eqb i EmptyString then EmptyString else "id: " ++ i ++ Js.nl
  | None => EmptyString
  end.

Definition retry_line (message : SSEMessage) : string :=
  match retry message with
  | Some r => if Z.eqb r 0 then EmptyString else "retry: " ++ Js.Number_toString r ++ Js.nl
  | None => EmptyString
  end.

Definition spec_frame (message : SSEMessage) (dataStr : string) : string :=
  event_line message ++ String.concat EmptyString (data_lines dataStr)
  ++ id_line message ++ retry_line message ++ Js.nl.

(** ** The stream and the host *)

(** Modelled from the spec: the duplex-stream primitive [StreamingApi] of
    [utils/stream], which [SSEStreamingApi] extends and whose source is not
    part of this development.  Section 4.2: a write fails with a WriteError
    when the stream is already closed or the transport write fails;
    [close()] ends the stream normally; [abort()] ends it abnormally and,
    by section 5, moves it directly to Closed; [closed] is the
    terminal-state flag.  [chunks] are the inputs the transport accepted,
    oldest first; [broken] says that the transport refuses writes. *)
Record StreamingApi : Type := mkStreamingApi {
  chunks : list string;
  closed : bool;
  aborted : bool;
  broken : bool
}.

(** What the code can observe and change: the session's stream object and
    the ambient diagnostic channel [console.error].  The [stream] argument
    that [run] hands to [cb] and [onError] is a reference to this one
    object, so it is implicit below. *)
Record Host : Type := mkHost {
  stream : StreamingApi;
  console : list JsValue
}.

(** An awaited asynchronous call, run to completion: it returns or throws,
    and leaves the host in a new state.  Whatever the environment does
    while the call is suspended (a client abort, say) is part of the
    state change. *)
Definition Task (A : Type) : Type := Host -> Completion A * Host.

Definition ret {A : Type} (a : A) : Task A := fun h => (Normal a, h).

Definition throw {A : Type} (v : JsValue) : Task A := fun h => (Throw v, h).

Definition bind {A B : Type} (t : Task A) (k : A -> Task B) : Task B :=
  fun h =>
    match t h with
    | (Normal a, h') => k a h'
    | (Throw v, h') => (Throw v, h')
    end.

Notation "x <- t ;; k" := (bind t (fun x => k))
  (at level 61, t at next level, right associativity).
Notation "t ;; k" := (bind t (fun _ => k))
  (at level 61, right associativity).

(** Modelled from the spec: the error a failed write raises.  Section 7
    makes it indistinguishable from a producer error at the supervisor
    boundary, so it is an instance of [Error]; its message text is not
    specified. *)
Definition WriteError : JsValue := JsError "WriteError".

Definition set_stream (s : StreamingApi) (h : Host) : Host :=
  mkHost s (console h).

(** Modelled from the spec: [StreamingApi.write]. *)
Definition write (input : string) : Task unit :=
  fun h =>
    let s := stream h in
    if closed s || broken s then (Throw WriteError, h)
    else (Normal tt,
          set_stream (mkStreamingApi (chunks s ++ [input])%list (closed s) (aborted s) (broken s)) h).

(** Modelled from the spec: [StreamingApi.close]. *)
Definition close : Task unit :=
  fun h =>
    let s := stream h in
    (Normal tt, set_stream (mkStreamingApi (chunks s) true (aborted s) (broken s)) h).

(** Modelled from the spec: [StreamingApi.abort]. *)
Definition abort : Task unit :=
  fun h =>
    let s := stream h in
    (Normal tt, set_stream (mkStreamingApi (chunks s) true true (broken s)) h).

(** [console.error(e)] *)
Definition console_error (e : JsValue) : Task unit :=
  fun h => (Normal tt, mkHost (stream h) (console h ++ [e])%list).

(** Modelled from the spec: [resolveCallback] of [utils/html], called with
    escaping disabled: a string is returned as it is, a deferred
    computation is awaited. *)
Definition resolveCallback (str : SSEData) : Task string :=
  match str with
  | DataString s => ret s
  | DataPromise (Normal s) => ret s
  | DataPromise (Throw v) => throw v
  end.

(** [SSEStreamingApi.writeSSE] *)
Definition writeSSE (message : SSEMessage) : Task unit :=
  data <- resolveCallback (data message) ;;
  write (sseData message data).

(** ** The supervisor *)

(** The statements of [run], recorded as they execute. *)
Inductive Step : Type :=
| StepProducer
| StepHandler (e : JsValue)
| StepWriteSSE (message : SSEMessage)
| StepConsoleError (e : JsValue)
| StepClose.

Record Run (A : Type) : Type := mkRun {
  steps : list Step;
  result : Completion A;
  final : Host
}.
Arguments mkRun {A} steps result final.
Arguments steps {A} r.
Arguments result {A} r.
Arguments final {A} r.

Definition Async (A : Type) : Type := Host -> Run A.

(** One statement of [run]: it is recorded, then the call it makes runs. *)
Definition perform {A : Type} (s : Step) (t : Task A) : Async A :=
  fun h => let (c, h') := t h in mkRun [s] c h'.

Definition and_then {A B : Type} (a : Async A) (k : Async B) : Async B :=
  fun h =>
    let r := a h in
    match result r with
    | Normal _ =>
        let r' := k (final r) in
        mkRun (steps r ++ steps r')%list (result r') (final r')
    | Throw v => mkRun (steps r) (Throw v) (final r)
    end.

(** [try { body } catch (e) { handler e }] *)
Definition try_catch {A : Type} (body : Async A) (handler : JsValue -> Async A) : Async A :=
  fun h =>
    let r := body h in
    match result r with
    | Normal a => r
    | Throw e =>
        let r' := handler e (final r) in
        mkRun (steps r ++ steps r')%list (result r') (final r')
    end.

(** [try { body } finally { fin }]: [fin] runs whatever [body] did; the
    completion is that of [body] unless [fin] itself throws. *)
Definition try_finally {A : Type} (body : Async A) (fin : Async unit) : Async A :=
  fun h =>
    let r := body h in
    let r' := fin (final r) in
    mkRun (steps r ++ steps r')%list
          (match result r' with
           | Normal _ => result r
           | Throw v => Throw v
           end)
          (final r').

(** The producer callback [cb] and the optional handler [onError]. *)
Definition Producer : Type := Task unit.
Definition ErrorHandler : Type := JsValue -> Task unit.

(** The frame [run] writes after the handler:
    [{ event: 'error', data: e.message }]. *)
Definition error_message (message : string) : SSEMessage :=
  mkSSEMessage (DataString message) (Some "error") None None.

(** [run] *)
Definition run (cb : Producer) (onError : option ErrorHandler) : Async unit :=
  try_finally
    (try_catch
       (perform StepProducer cb)
       (fun e =>
          match e, onError with
          | JsError message, Some onError =>
              and_then (perform (StepHandler e) (onError e))
                       (perform (StepWriteSSE (error_message message))
                                (writeSSE (error_message message)))
          | _, _ => perform (StepConsoleError e) (console_error e)
          end))
    (perform StepClose close).

(** The listener [streamSSE] registers on the request's abort signal when
    [isOldBunVersion()] holds. *)
Definition abort_listener : Task unit :=
  fun h => if negb (closed (stream h)) then abort h else (Normal tt, h).

(** A fresh session: nothing written, stream open, console empty. *)
Definition fresh : Host := mkHost (mkStreamingApi [] false false false) [].

(** Number of executions of the guaranteed-close statement in a trace. *)
Fixpoint count_close (tr : list Step) : nat :=
  match tr with
  | [] => 0
  | StepClose :: tr' => S (count_close tr')
  | _ :: tr' => count_close tr'
  end.

(** A stream that still accepts writes. *)
Definition writable (s : StreamingApi) : bool :=
  negb (closed s || broken s).

(** ** Scenarios *)

(** A message whose event name and identifier contain line feeds and a
    carriage return. *)
Definition control_message : SSEMessage :=
  mkSSEMessage (DataString "x")
               (Some ("a" ++ Js.nl ++ "data: forged"))
               (Some (String (ascii_of_nat 13) "7" ++ Js.nl))
               (Some 5%Z).

(** A producer that throws at once, and handlers that return or throw. *)
Definition throwing_producer (v : JsValue) : Producer := throw v.

Definition returning_handler : ErrorHandler := fun _ => ret tt.

Definition throwing_handler (v : JsValue) : ErrorHandler := fun _ => throw v.

(** A producer whose client goes away between its two writes: the abort
    listener fires while the producer is suspended. *)
Definition aborted_producer (first second : SSEMessage) : Producer :=
  writeSSE first ;; abort_listener ;; writeSSE second.

Definition hello : SSEMessage := mkSSEMessage (DataString "hello") None None None.

(** The reading of the sentence on unrecognized thrown values under which
    nothing is logged: when the producer throws a value that is not an
    [Error], [run] leaves the diagnostic channel as the producer left
    it. *)
Definition unrecognized_silently_discarded : Prop :=
  forall (cb : Producer) (onError : option ErrorHandler) (h h1 : Host) (v : string),
    cb h = (Throw (JsOther v), h1) ->
    console (final (run cb onError h)) = console h1.

(** ** Reading a frame back *)

(** The lines of a text: its pieces between line feeds. *)
Definition lines_of (text : string) : list string := Js.split text Js.LF.

(** A field value that stays on its line: absent, or free of line feeds. *)
Definition single_line (o : option string) : bool :=
  match o with
  | Some s => negb (Js.includes s Js.LF)
  | None => true
  end.

(** The lines a frame consists of when no field breaks out of its line. *)
Definition event_field (message : SSEMessage) : list string :=
  match event message with
  | Some e => if String.eqb e EmptyString then [] else ["event: " ++ e]
  | None => []
  end.

Definition id_field (message : SSEMessage) : list string :=
  match id message with
  | Some i => if String.eqb i EmptyString then [] else ["id: " ++ i]
  | None => []
  end.

Definition retry_field (message : SSEMessage) : list string :=
  match retry message with
  | Some r => if Z.eqb r 0 then [] else ["retry: " ++ Js.Number_toString r]
  | None => []
  end.

Definition frame_lines (message : SSEMessage) (dataStr : string) : list string :=
  (event_field message
   ++ map (fun line => ("data: " ++ line)%string) (Js.split dataStr Js.LF)
   ++ id_field message ++ retry_field message
   ++ [EmptyString; EmptyString])%list.

(** What a reader of the stream recovers: the payload of every line that
    starts with [data: ], joined by line feeds. *)
Definition data_payload (line : string) : option string :=
  match line with
  | String "d" (String "a" (String "t" (String "a" (String ":" (String " " rest))))) =>
      Some rest
  | _ => None
  end.

Fixpoint payloads (lines : list string) : list string :=
  match lines with
  | [] => []
  | line :: rest =>
      match data_payload line with
      | Some p => p :: payloads rest
      | None => payloads rest
      end
  end.

Definition data_of_frame (frame : string) : string :=
  String.concat Js.nl (payloads (lines_of frame)).

(** ** What a run did, read off its trace *)

(** The errors handed to the handler. *)
Fixpoint handler_calls (tr : list Step) : list JsValue :=
  match tr with
  | [] => []
  | StepHandler e :: tr' => e :: handler_calls tr'
  | _ :: tr' => handler_calls tr'
  end.

(** The values handed to [console.error]. *)
Fixpoint logged_values (tr : list Step) : list JsValue :=
  match tr with
  | [] => []
  | StepConsoleError e :: tr' => e :: logged_values tr'
  | _ :: tr' => logged_values tr'
  end.

(** The messages [run] itself passed to [writeSSE]. *)
Fixpoint frames_requested (tr : list Step) : list SSEMessage :=
  match tr with
  | [] => []
  | StepWriteSSE m :: tr' => m :: frames_requested tr'
  | _ :: tr' => frames_requested tr'
  end.

(** * The bundle-size report: [scripts/analyze-bundle-size.cjs] *)

Module Bundle.

(** ** Built-ins *)

(** [String.prototype.padEnd(n)]: spaces are appended up to length [n]. *)
Fixpoint spaces (n : nat) : string :=
  match n with
  | O => EmptyString
  | S n' => String " " (spaces n')
  end.

Definition padEnd (s : string) (n : nat) : string :=
  s ++ spaces (n - String.length s).

(** [String.prototype.endsWith] *)
Definition endsWith (s suffix : string) : bool :=
  (String.length suffix <=? String.length s)%nat
  && String.eqb (substring (String.length s - String.length suffix)
                           (String.length suffix) s) suffix.

(** [(num / den).toFixed(2)] for [num >= 0] and [den] a power of two, so
    that the quotient is an exact Number: the integer [n] for which
    [n / 100] is closest to the quotient, the larger one on a tie, printed
    with a point before its last two digits. *)
Definition hundredths (num den : Z) : Z := (200 * num + den) / (2 * den).

Definition fixed2 (n : Z) : string :=
  Js.Number_toString (n / 100) ++ "."
  ++ Js.Number_toString (n / 10 mod 10) ++ Js.Number_toString (n mod 10).

Definition toFixed2 (num den : Z) : string := fixed2 (hundredths num den).

(** [Array.prototype.sort((a, b) => b.size - a.size)]: the stable sort by
    decreasing size. *)
Fixpoint insert_desc (x : string * Z) (l : list (string * Z)) : list (string * Z) :=
  match l with
  | [] => [x]
  | y :: l' => if (snd y <=? snd x)%Z then x :: y :: l' else y :: insert_desc x l'
  end.

Fixpoint sort_desc (l : list (string * Z)) : list (string * Z) :=
  match l with
  | [] => []
  | x :: l' => insert_desc x (sort_desc l')
  end.

(** ** Constants *)

Definition ESC : string := String (ascii_of_nat 27) EmptyString.
Definition reset : string := ESC ++ "[0m".
Definition bright : string := ESC ++ "[1m".
Definition green : string := ESC ++ "[32m".
Definition yellow : string := ESC ++ "[33m".
Definition blue : string := ESC ++ "[34m".
Definition red : string := ESC ++ "[31m".
Definition cyan : string := ESC ++ "[36m".

(** [formatBytes] *)
Definition formatBytes (bytes : Z) : string :=
  if (bytes =? 0)%Z then "0 B"
  else if (bytes <? 1024)%Z then Js.Number_toString bytes ++ " B"
  else if (bytes <? 1024 * 1024)%Z then toFixed2 bytes 1024 ++ " KB"
  else toFixed2 bytes (1024 * 1024) ++ " MB".

(** ** The environment of the script *)

(** What the script reads from Node: the two directories computed when it
    is loaded, [path.join], and the file system.  [readdirSync],
    [statSync] and [readFileSync] throw on some paths, which is [None]
    here; sizes are integers. *)
Record Node : Type := mkNode {
  DIST_DIR : string;
  SRC_DIR : string;
  path_join : list string -> string;
  existsSync : string -> bool;
  readdirSync : string -> option (list string);
  statSync_size : string -> option Z;
  readFileSync : string -> option string
}.

(** [getFileSize]: the size, or [null] when [statSync] throws. *)
Definition getFileSize (n : Node) (filePath : string) : option Z :=
  match statSync_size n filePath with
  | Some size => Some size
  | None => None
  end.

(** A JavaScript object used as a map from names to sizes.  Assignment
    replaces the value of a key that is present; the order in which a
    reader would enumerate the keys is not modelled. *)
Definition JsObject : Type := list (string * Z).

Fixpoint obj_set (k : string) (v : Z) (o : JsObject) : JsObject :=
  match o with
  | [] => [(k, v)]
  | (k', v') :: o' =>
      if String.eqb k' k then (k', v) :: o' else (k', v') :: obj_set k v o'
  end.

Fixpoint obj_get (k : string) (o : JsObject) : option Z :=
  match o with
  | [] => None
  | (k', v') :: o' => if String.eqb k' k then Some v' else obj_get k o'
  end.

(** The object [results] of [analyzeDist]. *)
Record Results : Type := mkResults {
  presets : JsObject;
  core : JsObject;
  middleware : JsObject;
  helpers : JsObject;
  total : Z
}.

(** How a function of the script ends: it returns, it calls
    [process.exit], or an exception leaves it. *)
Inductive Outcome (A : Type) : Type :=
| Returned (a : A)
| Exited (code : Z)
| Threw.
Arguments Returned {A} a.
Arguments Exited {A} code.
Arguments Threw {A}.

(** A piece of the script: given the lines printed so far, the lines
    printed after it and how it ended. *)
Definition Script (A : Type) : Type := list string -> list string * Outcome A.

Definition pure {A : Type} (a : A) : Script A := fun out => (out, Returned a).

Definition and_next {A B : Type} (s : Script A) (k : A -> Script B) : Script B :=
  fun out =>
    match s out with
    | (out', Returned a) => k a out'
    | (out', Exited code) => (out', Exited code)
    | (out', Threw) => (out', Threw)
    end.

(** [console.log(line)] *)
Definition console_log (line : string) : Script unit :=
  fun out => ((out ++ [line])%list, Returned tt).

(** [process.exit(code)] *)
Definition process_exit {A : Type} (code : Z) : Script A :=
  fun out => (out, Exited code).

(** [fs.readdirSync(dir)] *)
Definition readdir (n : Node) (dir : string) : Script (list string) :=
  fun out =>
    match readdirSync n dir with
    | Some entries => (out, Returned entries)
    | None => (out, Threw)
    end.

(** [xs.forEach(x => body)] where the body updates a captured variable. *)
Fixpoint forEach {A S : Type} (xs : list A) (body : S -> A -> Script S) (s : S)
  : Script S :=
  match xs with
  | [] => pure s
  | x :: xs' => and_next (body s x) (fun s' => forEach xs' body s')
  end.

(** ** [analyzeDist] *)

Definition coreFiles : list string :=
  ["index.js"; "hono-base.js"; "context.js"; "request.js"].

(** The body of [presets.forEach]. *)
Definition preset_body (n : Node) (presetDir : string)
    (results : Results) (preset : string) : Script Results :=
  match getFileSize n (path_join n [presetDir; preset]) with
  | Some size =>
      let results :=
        mkResults (obj_set preset size (presets results)) (core results)
                  (middleware results) (helpers results) (total results) in
      let results :=
        mkResults (presets results) (core results) (middleware results)
                  (helpers results) (total results + size) in
      let sizeStr := formatBytes size in
      let status := if (12 * 1024 <? size)%Z then red else green in
      and_next
        (console_log ("  " ++ status ++ padEnd preset 20 ++ sizeStr ++ reset))
        (fun _ => pure results)
  | None => pure results
  end.

(** The body of [coreFiles.forEach]. *)
Definition core_body (n : Node) (results : Results) (file : string)
  : Script Results :=
  match getFileSize n (path_join n [DIST_DIR n; file]) with
  | Some size =>
      let results :=
        mkResults (presets results) (obj_set file size (core results))
                  (middleware results) (helpers results) (total results) in
      let results :=
        mkResults (presets results) (core results) (middleware results)
                  (helpers results) (total results + size) in
      and_next
        (console_log ("  " ++ padEnd file 20 ++ formatBytes size))
        (fun _ => pure results)
  | None => pure results
  end.

(** The body of [middleware.forEach]: the captured variables are the
    array [sizes] and [results]. *)
Definition middleware_body (n : Node) (middlewareDir : string)
    (st : list (string * Z) * Results) (dir : string)
  : Script (list (string * Z) * Results) :=
  let (sizes, results) := st in
  let indexPath := path_join n [middlewareDir; dir; "index.js"] in
  match getFileSize n indexPath with
  | Some size =>
      let sizes := (sizes ++ [(dir, size)])%list in
      let results :=
        mkResults (presets results) (core results)
                  (obj_set dir size (middleware results))
                  (helpers results) (total results) in
      pure (sizes, results)
  | None => pure (sizes, results)
  end.

(** [sizes.sort((a, b) => b.size - a.size).slice(0, 10)] *)
Definition top10 (sizes : list (string * Z)) : list (string * Z) :=
  firstn 10 (sort_desc sizes).

(** [analyzeDist] *)
Definition analyzeDist (n : Node) : Script Results :=
  and_next (console_log (bright ++ blue ++ "=== Bundle Size Analysis ===" ++ reset ++ Js.nl))
  (fun _ =>
  and_next
    (if negb (existsSync n (DIST_DIR n))
     then and_next
            (console_log (red ++ "Error: dist/ directory not found. Run 'bun run build' first." ++ reset))
            (fun _ => process_exit 1)
     else pure tt)
  (fun _ =>
  let results := mkResults [] [] [] [] 0 in
  let presetDir := path_join n [DIST_DIR n; "preset"] in
  and_next
    (if existsSync n presetDir
     then and_next (readdir n presetDir) (fun entries =>
          let presets := filter (fun f => endsWith f ".js") entries in
          and_next (console_log (bright ++ "Presets:" ++ reset)) (fun _ =>
          and_next (forEach presets (preset_body n presetDir) results) (fun results =>
          and_next (console_log EmptyString) (fun _ =>
          pure results))))
     else pure results)
  (fun results =>
  and_next (console_log (bright ++ "Core Modules:" ++ reset)) (fun _ =>
  and_next (forEach coreFiles (core_body n) results) (fun results =>
  and_next (console_log EmptyString) (fun _ =>
  let middlewareDir := path_join n [DIST_DIR n; "middleware"] in
  and_next
    (if existsSync n middlewareDir
     then and_next (readdir n middlewareDir) (fun middleware =>
          and_next (console_log (bright ++ "Middleware (Top 10):" ++ reset)) (fun _ =>
          and_next (forEach middleware (middleware_body n middlewareDir) ([], results))
          (fun st =>
          let (sizes, results) := st in
          and_next
            (forEach (top10 sizes)
               (fun (_ : unit) (entry : string * Z) =>
                  let (name, size) := entry in
                  console_log ("  " ++ padEnd name 20 ++ formatBytes size))
               tt)
          (fun _ =>
          and_next (console_log EmptyString) (fun _ =>
          pure results)))))
     else pure results)
  (fun results =>
  and_next
    (console_log (bright ++ cyan ++ "Total analyzed: " ++ formatBytes (total results)
                  ++ reset ++ Js.nl))
  (fun _ => pure results)))))))).

(** ** [identifyOptimizations] *)

(** [fs.readFileSync(path, 'utf-8')] *)
Definition readFile (n : Node) (filePath : string) : Script string :=
  fun out =>
    match readFileSync n filePath with
    | Some content => (out, Returned content)
    | None => (out, Threw)
    end.

(** An entry of the array [opportunities]. *)
Record Opportunity : Type := mkOpportunity {
  priority : string;
  area : string;
  suggestion : string
}.

(** [content.split('\n').length] *)
Definition line_count (content : string) : nat :=
  List.length (Js.split content Js.LF).

(** Interpolation of a line count. *)
Definition show_count (k : nat) : string := Js.Number_toString (Z.of_nat k).

(** Lines 172 to 183: the check of [types.ts]. *)
Definition types_check (n : Node) (opportunities : list Opportunity)
  : Script (list Opportunity) :=
  let typesPath := path_join n [SRC_DIR n; "types.ts"] in
  if existsSync n typesPath
  then and_next (readFile n typesPath) (fun content =>
       let typesLines := line_count content in
       if (2000 <? typesLines)%nat
       then pure (opportunities ++
                  [mkOpportunity "Medium" "Type Definitions"
                     ("types.ts is " ++ show_count typesLines
                      ++ " lines. Consider splitting into smaller type files for better IDE performance.")])%list
       else pure opportunities)
  else pure opportunities.

(** The body of [middleware.forEach] in lines 189 to 201. *)
Definition middleware_check (n : Node) (middlewareDir : string)
    (opportunities : list Opportunity) (dir : string)
  : Script (list Opportunity) :=
  let indexPath := path_join n [middlewareDir; dir; "index.ts"] in
  if existsSync n indexPath
  then and_next (readFile n indexPath) (fun content =>
       let lines := line_count content in
       if (300 <? lines)%nat
       then pure (opportunities ++
                  [mkOpportunity "Low" ("Middleware: " ++ dir)
                     (show_count lines
                      ++ " lines. Review for potential simplification or code splitting.")])%list
       else pure opportunities)
  else pure opportunities.

(** Lines 204 to 215: the check of [jsx/intrinsic-elements.ts]. *)
Definition intrinsic_check (n : Node) (opportunities : list Opportunity)
  : Script (list Opportunity) :=
  let intrinsicPath := path_join n [SRC_DIR n; "jsx"; "intrinsic-elements.ts"] in
  if existsSync n intrinsicPath
  then and_next (readFile n intrinsicPath) (fun content =>
       let intrinsicLines := line_count content in
       if (800 <? intrinsicLines)%nat
       then pure (opportunities ++
                  [mkOpportunity "Low" "JSX Intrinsic Elements"
                     (show_count intrinsicLines
                      ++ " lines of type definitions. These don't affect runtime bundle but impact type-checking speed.")])%list
       else pure opportunities)
  else pure opportunities.

(** Lines 170 to 215: the array [opportunities] as the three checks fill
    it. *)
Definition collect_opportunities (n : Node) : Script (list Opportunity) :=
  and_next (types_check n []) (fun opportunities =>
  let middlewareDir := path_join n [SRC_DIR n; "middleware"] in
  and_next
    (if existsSync n middlewareDir
     then and_next (readdir n middlewareDir) (fun middleware =>
          forEach middleware (middleware_check n middlewareDir) opportunities)
     else pure opportunities)
  (fun opportunities => intrinsic_check n opportunities)).

(** The colour chosen for a priority in line 222. *)
Definition priorityColor (opp : Opportunity) : string :=
  if String.eqb (priority opp) "High" then red
  else if String.eqb (priority opp) "Medium" then yellow
  else blue.

(** [opportunities.forEach((opp, idx) => ...)] from index [idx] on. *)
Fixpoint print_opportunities (opportunities : list Opportunity) (idx : nat)
  : Script unit :=
  match opportunities with
  | [] => pure tt
  | opp :: rest =>
      and_next
        (console_log (show_count (idx + 1) ++ ". " ++ priorityColor opp
                      ++ "[" ++ priority opp ++ "]" ++ reset ++ " "
                      ++ bright ++ area opp ++ reset))
      (fun _ =>
      and_next (console_log ("   " ++ suggestion opp ++ Js.nl))
      (fun _ => print_opportunities rest (S idx)))
  end.

(** [identifyOptimizations] *)
Definition identifyOptimizations (n : Node) : Script unit :=
  and_next
    (console_log (bright ++ blue ++ "=== Optimization Opportunities ===" ++ reset ++ Js.nl))
  (fun _ =>
  and_next (collect_opportunities n) (fun opportunities =>
  if (List.length opportunities =? 0)%nat
  then and_next
         (console_log (green ++ "No obvious optimization opportunities identified." ++ reset))
       (fun _ =>
       console_log ("Code appears well-structured for bundle size optimization." ++ Js.nl))
  else print_opportunities opportunities 0)).

(** A text of [k] empty lines, each ended by a line feed. *)
Fixpoint blank_lines (k : nat) : string :=
  match k with
  | O => EmptyString
  | S k' => String Js.LF (blank_lines k')
  end.

(** ** Vocabulary for the properties *)

(** The path of [types.ts] and the entry its check appends. *)
Definition typesPath (n : Node) : string := path_join n [SRC_DIR n; "types.ts"].

Definition types_entry (content : string) : Opportunity :=
  mkOpportunity "Medium" "Type Definitions"
    ("types.ts is " ++ show_count (line_count content)
     ++ " lines. Consider splitting into smaller type files for better IDE performance.").

(** An entry one of the two later checks appends. *)
Definition later_entry (o : Opportunity) : Prop :=
  priority o = "Low"
  /\ (area o = "JSX Intrinsic Elements"
      \/ exists dir, area o = "Middleware: " ++ dir).

(** The sizes of the paths whose [statSync] succeeds, in order. *)
Fixpoint sizes_found (n : Node) (paths : list string) : list Z :=
  match paths with
  | [] => []
  | p :: paths' =>
      match statSync_size n p with
      | Some size => size :: sizes_found n paths'
      | None => sizes_found n paths'
      end
  end.

Definition sum (sizes : list Z) : Z := fold_right Z.add 0%Z sizes.

(** The preset files the report looks at: the entries of [dist/preset]
    whose name ends in [.js], when the directory exists. *)
Definition preset_paths (n : Node) : list string :=
  let presetDir := path_join n [DIST_DIR n; "preset"] in
  if existsSync n presetDir
  then match readdirSync n presetDir with
       | Some entries =>
           map (fun f => path_join n [presetDir; f])
               (filter (fun f => endsWith f ".js") entries)
       | None => []
       end
  else [].

Definition core_paths (n : Node) : list string :=
  map (fun f => path_join n [DIST_DIR n; f]) coreFiles.

End Bundle.

(** ** A sample distribution directory *)

Module Sample.

Definition node : Bundle.Node :=
  Bundle.mkNode "dist" "src" (String.concat "/")
    (fun p => existsb (String.eqb p)
                      ["dist"; "dist/preset"; "dist/middleware"; "src/types.ts"])
    (fun p =>
       if String.eqb p "dist/preset" then Some ["tiny.js"; "tiny.d.ts"; "quick.js"]
       else if String.eqb p "dist/middleware" then Some ["cors"; "jwt"; "empty"]
       else None)
    (fun p =>
       if String.eqb p "dist/preset/tiny.js" then Some 11000%Z
       else if String.eqb p "dist/preset/tiny.d.ts" then Some 700%Z
       else if String.eqb p "dist/preset/quick.js" then Some 20000%Z
       else if String.eqb p "dist/index.js" then Some 1500%Z
       else if String.eqb p "dist/middleware/cors/index.js" then Some 3000%Z
       else if String.eqb p "dist/middleware/jwt/index.js" then Some 9000%Z
       else None)
    (fun p =>
       if String.eqb p "src/types.ts" then Some (Bundle.blank_lines 2000)
       else None).

Definition middleware_sizes : list (string * Z) :=
  [("cors", 3000%Z); ("jwt", 9000%Z); ("etag", 3000%Z)].

End Sample.

(** Unfolds [run] down to the calls it makes. *)
Ltac run_unfold :=
  unfold run, try_finally, try_catch, and_then, perform, close, set_stream.

(** ** The examples of the specification *)

Example sseData_update :
  sseData (mkSSEMessage (DataString ("a" ++ Js.nl ++ "b")) (Some "update") (Some "42") (Some 3000%Z))
          ("a" ++ Js.nl ++ "b")
  = "event: update" ++ Js.nl ++ "data: a" ++ Js.nl ++ "data: b" ++ Js.nl
    ++ "id: 42" ++ Js.nl ++ "retry: 3000" ++ Js.nl ++ Js.nl.
Proof. reflexivity. Qed.

Example sseData_hello :
  sseData (mkSSEMessage (DataString "hello") None None None) "hello"
  = "data: hello" ++ Js.nl ++ Js.nl.
Proof. reflexivity. Qed.

(** ** Strings: append, split and join *)

Section StringFacts.

Lemma append_nil_r (s : string) : s ++ EmptyString = s.
Proof. induction s as [|a s IH]; simpl; [reflexivity | now rewrite IH]. Qed.

Lemma append_assoc (s t u : string) : (s ++ t) ++ u = s ++ t ++ u.
Proof. induction s as [|a s IH]; simpl; [reflexivity | now rewrite IH]. Qed.

Lemma concat_empty_cons (x : string) (xs : list string) :
  String.concat EmptyString (x :: xs) = x ++ String.concat EmptyString xs.
Proof. destruct xs; simpl; [now rewrite append_nil_r | reflexivity]. Qed.

Lemma split_not_nil (s : string) (sep : ascii) : Js.split s sep <> [].
Proof.
  destruct s as [|a s]; simpl; [discriminate|].
  destruct (Ascii.eqb a sep); [discriminate|].
  destruct (Js.split s sep); discriminate.
Qed.

(** Without the separator, [split] returns the string itself: the two
    branches of the source's [includes] test agree. *)
Lemma split_without_sep (s : string) (sep : ascii) :
  Js.includes s sep = false -> Js.split s sep = [s].
Proof.
  induction s as [|a s IH]; simpl; [reflexivity|].
  intros H. apply orb_false_iff in H as [Ha Hs].
  rewrite Ha, (IH Hs). reflexivity.
Qed.

Lemma split_length (s : string) :
  List.length (Js.split s Js.LF) = count_newlines s + 1.
Proof.
  induction s as [|a s IH]; simpl; [reflexivity|].
  destruct (Ascii.eqb a Js.LF); simpl.
  - now rewrite IH.
  - destruct (Js.split s Js.LF) eqn:E; simpl in *; lia.
Qed.

(** Joining the pieces with the separator gives the string back, so the
    pieces are the lines of the string in their original order, empty
    ones included. *)
Lemma join_split (s : string) :
  String.concat Js.nl (Js.split s Js.LF) = s.
Proof.
  induction s as [|a s IH]; [reflexivity|].
  simpl Js.split. destruct (Ascii.eqb a Js.LF) eqn:Ea.
  - apply Ascii.eqb_eq in Ea. subst a.
    pose proof (split_not_nil s Js.LF) as Hn.
    destruct (Js.split s Js.LF) as [|p ps]; [contradiction|].
    change (String.concat Js.nl (EmptyString :: p :: ps))
      with (Js.nl ++ String.concat Js.nl (p :: ps)).
    rewrite IH. reflexivity.
  - destruct (Js.split s Js.LF) as [|p ps] eqn:E.
    + exfalso. now apply (split_not_nil s Js.LF).
    + destruct ps as [|q qs]; simpl in *; now rewrite <- IH.
Qed.

(** The [for] loop of the source appends one [data:] line per piece. *)
Lemma fold_left_data (lines : list string) (acc : string) :
  fold_left (fun acc line => acc ++ "data: " ++ line ++ Js.nl) lines acc
  = acc ++ String.concat EmptyString
             (map (fun line => "data: " ++ line ++ Js.nl) lines).
Proof.
  revert acc. induction lines as [|l ls IH]; intros acc.
  - simpl. now rewrite append_nil_r.
  - cbn [fold_left map]. rewrite IH, concat_empty_cons, append_assoc.
    reflexivity.
Qed.

End StringFacts.

(** The source's accumulation and the field-by-field layout agree. *)
Lemma sseData_spec_frame (message : SSEMessage) (dataStr : string) :
  sseData message dataStr = spec_frame message dataStr.
Proof.
  unfold sseData, spec_frame, event_line, id_line, retry_line, data_lines.
  assert (Hd : forall acc,
    (if Js.includes dataStr Js.LF
     then fold_left (fun acc line => acc ++ "data: " ++ line ++ Js.nl)
                    (Js.split dataStr Js.LF) acc
     else acc ++ "data: " ++ dataStr ++ Js.nl)
    = acc ++ String.concat EmptyString
               (map (fun line => "data: " ++ line ++ Js.nl) (Js.split dataStr Js.LF))).
  { intros acc. destruct (Js.includes dataStr Js.LF) eqn:E.
    - apply fold_left_data.
    - rewrite (split_without_sep _ _ E). reflexivity. }
  cbv zeta. rewrite Hd. clear Hd.
  set (D := String.concat EmptyString _).
  destruct message as [d ev i r]; cbn [event id retry].
  unfold Js.truthy_string, Js.truthy_number, Js.interp_string, Js.interp_number.
  set (R := Js.Number_toString).
  destruct ev as [e|]; [destruct (String.eqb e EmptyString)|];
  (destruct i as [i|]; [destruct (String.eqb i EmptyString)|]);
  (destruct r as [r|]; [destruct (Z.eqb r 0)|]);
  cbn [negb]; unfold Js.nl;
  rewrite ?append_assoc, ?append_nil_r; cbn [append];
  rewrite ?append_assoc; reflexivity.
Qed.

(** ** Decimal numerals printed by [Number_toString] *)

Section Numerals.

Lemma string_of_uint_digits (d : uint) :
  all_digits (NilEmpty.string_of_uint d) = true.
Proof. induction d; simpl; auto. Qed.

Lemma string_of_uint_value_acc (d : uint) (acc : positive) :
  decimal_value_from (Z.pos acc) (NilEmpty.string_of_uint d)
  = Z.pos (Pos.of_uint_acc d acc).
Proof.
  revert acc. induction d; intros acc; cbn [NilEmpty.string_of_uint decimal_value_from Pos.of_uint_acc];
    [reflexivity | ..];
    rewrite <- IHd; f_equal; vm_compute nat_of_ascii; lia.
Qed.

Lemma string_of_uint_value (d : uint) :
  decimal_value (NilEmpty.string_of_uint d) = Z.of_N (Pos.of_uint d).
Proof.
  unfold decimal_value.
  induction d; cbn [NilEmpty.string_of_uint decimal_value_from Pos.of_uint];
    [reflexivity | exact IHd | ..];
    apply string_of_uint_value_acc.
Qed.

Lemma string_of_uint_empty (d : uint) :
  NilEmpty.string_of_uint d = EmptyString -> d = Nil.
Proof. destruct d; simpl; intros H; [reflexivity | discriminate H ..]. Qed.

Lemma unorm_leading (d d' : uint) : unorm d = D0 d' -> d' = Nil.
Proof.
  induction d; cbn [unorm]; intros H; try discriminate H; auto.
  now injection H as <-.
Qed.

Lemma to_uint_leading (p : positive) (d : uint) : Pos.to_uint p <> D0 d.
Proof.
  intros H.
  pose proof (DecimalPos.Unsigned.to_of (Pos.to_uint p)) as Hn.
  rewrite DecimalPos.Unsigned.of_to in Hn. cbn [N.to_uint] in Hn.
  rewrite H in Hn. symmetry in Hn.
  pose proof (unorm_leading _ _ Hn) as ->.
  now apply (DecimalPos.Unsigned.to_uint_nonzero p).
Qed.

Lemma Number_toString_pos (p : positive) :
  is_decimal_numeral_of (Js.Number_toString (Z.pos p)) (Z.pos p).
Proof.
  unfold Js.Number_toString. cbn [Z.to_int NilZero.string_of_int].
  pose proof (DecimalPos.Unsigned.to_uint_nonnil p) as Hnil.
  assert (E : NilZero.string_of_uint (Pos.to_uint p)
              = NilEmpty.string_of_uint (Pos.to_uint p)).
  { destruct (Pos.to_uint p); [contradiction | reflexivity ..]. }
  rewrite E. repeat split.
  - intros H. apply Hnil. now apply string_of_uint_empty.
  - apply string_of_uint_digits.
  - pose proof (to_uint_leading p) as Hl.
    destruct (Pos.to_uint p) as [|u|u|u|u|u|u|u|u|u|u];
      [reflexivity | exfalso; now apply (Hl u) | destruct u; reflexivity ..].
  - rewrite string_of_uint_value, DecimalPos.Unsigned.of_to. reflexivity.
Qed.

Lemma Number_toString_neg (p : positive) :
  Js.Number_toString (Z.neg p) = String "-" (Js.Number_toString (Z.pos p)).
Proof. reflexivity. Qed.

End Numerals.

(** ** Properties of the wire format *)

(** C2: for every message and resolved data string, the frame is the
    optional [event:] line, then one [data:] line per line of the data,
    then the optional [id:] line, the optional [retry:] line and one bare
    line feed, in that order; data with k line feeds gives k+1 [data:]
    lines, which are the lines of the data in their original order (joining
    them with line feeds gives the data back), and empty data gives the
    single line [data: ] followed by a line feed. *)
Theorem sseData_layout (message : SSEMessage) (dataStr : string) :
  sseData message dataStr
  = event_line message ++ String.concat EmptyString (data_lines dataStr)
    ++ id_line message ++ retry_line message ++ Js.nl
  /\ data_lines dataStr
     = map (fun line => "data: " ++ line ++ Js.nl) (Js.split dataStr Js.LF)
  /\ List.length (data_lines dataStr) = count_newlines dataStr + 1
  /\ String.concat Js.nl (Js.split dataStr Js.LF) = dataStr
  /\ data_lines EmptyString = ["data: " ++ Js.nl].
Proof.
  split; [apply sseData_spec_frame|].
  split; [reflexivity|].
  split; [unfold data_lines; rewrite length_map; apply split_length|].
  split; [apply join_split | reflexivity].
Qed.

(** C7: a retry of exactly 0 gives the same frame as an absent retry, and
    a retry of at least 1 gives a [retry:] line, placed last before the
    terminating line feed, whose text is the decimal numeral of the
    value. *)
Theorem retry_zero_absent_positive_decimal
    (d : SSEData) (ev i : option string) (dataStr : string) (r : Z) :
  (1 <= r)%Z ->
  Js.isSafeInteger r = true ->
  sseData (mkSSEMessage d ev i (Some 0%Z)) dataStr
  = sseData (mkSSEMessage d ev i None) dataStr
  /\ sseData (mkSSEMessage d ev i (Some r)) dataStr
     = event_line (mkSSEMessage d ev i None)
       ++ String.concat EmptyString (data_lines dataStr)
       ++ id_line (mkSSEMessage d ev i None)
       ++ "retry: " ++ Js.Number_toString r ++ Js.nl ++ Js.nl
  /\ is_decimal_numeral_of (Js.Number_toString r) r.
Proof.
  intros Hr _. split; [|split].
  - rewrite !sseData_spec_frame. reflexivity.
  - rewrite sseData_spec_frame. unfold spec_frame, retry_line, event_line, id_line.
    cbn [retry event id]. destruct (Z.eqb_spec r 0) as [E|_]; [lia|].
    rewrite !append_assoc. reflexivity.
  - destruct r as [|p|p]; try lia. apply Number_toString_pos.
Qed.

Lemma retry_zero_absent_positive_decimal_witness :
  (1 <= 3000)%Z /\ Js.isSafeInteger 3000 = true
  /\ sseData (mkSSEMessage (DataString "hello") None None (Some 0%Z)) "hello"
     = "data: hello" ++ Js.nl ++ Js.nl
  /\ sseData (mkSSEMessage (DataString "hello") None None (Some 3000%Z)) "hello"
     = "data: hello" ++ Js.nl ++ "retry: 3000" ++ Js.nl ++ Js.nl
  /\ is_decimal_numeral_of "3000" 3000.
Proof.
  assert (H1 : (1 <= 3000)%Z) by lia.
  assert (H2 : Js.isSafeInteger 3000 = true) by reflexivity.
  split; [exact H1|]. split; [exact H2|].
  exact (retry_zero_absent_positive_decimal
           (DataString "hello") None None "hello" 3000 H1 H2).
Defined.

(** C8: the event name, the identifier and the retry number a caller
    passes are copied into their lines as they are, whatever characters
    they contain; nothing is escaped or filtered. *)
Theorem fields_embedded_verbatim (message : SSEMessage) (dataStr : string) :
  (forall e, event message = Some e -> e <> EmptyString ->
     sseData message dataStr
     = "event: " ++ e ++ Js.nl
       ++ String.concat EmptyString (data_lines dataStr)
       ++ id_line message ++ retry_line message ++ Js.nl)
  /\ (forall i, id message = Some i -> i <> EmptyString ->
        sseData message dataStr
        = event_line message ++ String.concat EmptyString (data_lines dataStr)
          ++ "id: " ++ i ++ Js.nl ++ retry_line message ++ Js.nl)
  /\ (forall r, retry message = Some r -> r <> 0%Z ->
        sseData message dataStr
        = event_line message ++ String.concat EmptyString (data_lines dataStr)
          ++ id_line message ++ "retry: " ++ Js.Number_toString r ++ Js.nl ++ Js.nl).
Proof.
  rewrite sseData_spec_frame. unfold spec_frame.
  split; [|split].
  - intros e He Hne. unfold event_line. rewrite He.
    apply String.eqb_neq in Hne. rewrite Hne.
    rewrite !append_assoc. reflexivity.
  - intros i Hi Hne. unfold id_line at 1. rewrite Hi.
    apply String.eqb_neq in Hne. rewrite Hne.
    rewrite !append_assoc. reflexivity.
  - intros r Hr Hne. unfold retry_line. rewrite Hr.
    apply Z.eqb_neq in Hne. rewrite Hne.
    rewrite !append_assoc. reflexivity.
Qed.

Lemma fields_embedded_verbatim_witness :
  sseData control_message "x"
  = "event: a" ++ Js.nl ++ "data: forged" ++ Js.nl
    ++ "data: x" ++ Js.nl
    ++ "id: " ++ String (ascii_of_nat 13) "7" ++ Js.nl ++ Js.nl
    ++ "retry: 5" ++ Js.nl ++ Js.nl
  /\ sseData control_message "x"
     = event_line control_message ++ "data: x" ++ Js.nl
       ++ "id: " ++ String (ascii_of_nat 13) "7" ++ Js.nl ++ Js.nl
       ++ retry_line control_message ++ Js.nl
  /\ sseData control_message "x"
     = event_line control_message ++ "data: x" ++ Js.nl
       ++ id_line control_message ++ "retry: 5" ++ Js.nl ++ Js.nl.
Proof.
  destruct (fields_embedded_verbatim control_message "x") as (He & Hi & Hr).
  split; [|split].
  - rewrite (He ("a" ++ Js.nl ++ "data: forged") eq_refl); [reflexivity|].
    discriminate.
  - rewrite (Hi (String (ascii_of_nat 13) "7" ++ Js.nl) eq_refl); [reflexivity|].
    discriminate.
  - rewrite (Hr 5%Z eq_refl); [reflexivity|]. discriminate.
Defined.

(** C10: a negative retry is not rejected or dropped: the frame carries a
    [retry:] line whose text is a minus sign followed by the decimal
    numeral of the magnitude; for -1 the line is [retry: -1]. *)
Theorem negative_retry_emitted
    (d : SSEData) (ev i : option string) (dataStr : string) (r : Z) :
  (r < 0)%Z ->
  Js.isSafeInteger r = true ->
  sseData (mkSSEMessage d ev i (Some r)) dataStr
  = event_line (mkSSEMessage d ev i None)
    ++ String.concat EmptyString (data_lines dataStr)
    ++ id_line (mkSSEMessage d ev i None)
    ++ "retry: " ++ Js.Number_toString r ++ Js.nl ++ Js.nl
  /\ exists digits,
       Js.Number_toString r = String "-" digits
       /\ is_decimal_numeral_of digits (- r).
Proof.
  intros Hr _. split.
  - rewrite sseData_spec_frame. unfold spec_frame, retry_line, event_line, id_line.
    cbn [retry event id]. destruct (Z.eqb_spec r 0) as [E|_]; [lia|].
    rewrite !append_assoc. reflexivity.
  - destruct r as [|p|p]; try lia.
    exists (Js.Number_toString (Z.pos p)). split.
    + apply Number_toString_neg.
    + apply Number_toString_pos.
Qed.

Lemma negative_retry_emitted_witness :
  (-1 < 0)%Z /\ Js.isSafeInteger (-1) = true
  /\ sseData (mkSSEMessage (DataString "hello") None None (Some (-1)%Z)) "hello"
     = "data: hello" ++ Js.nl ++ "retry: -1" ++ Js.nl ++ Js.nl
  /\ exists digits,
       "-1" = String "-" digits /\ is_decimal_numeral_of digits 1.
Proof.
  assert (H1 : (-1 < 0)%Z) by lia.
  assert (H2 : Js.isSafeInteger (-1) = true) by reflexivity.
  split; [exact H1|]. split; [exact H2|].
  exact (negative_retry_emitted (DataString "hello") None None "hello" (-1) H1 H2).
Defined.

(** ** Writing a frame *)

(** What a single call of [write] can do: fail and leave the host as it
    was, or append its whole input as one chunk. *)
Lemma write_cases (input : string) (h : Host) :
  (writable (stream h) = false /\ write input h = (Throw WriteError, h))
  \/ (writable (stream h) = true
      /\ exists h', write input h = (Normal tt, h')
         /\ chunks (stream h') = (chunks (stream h) ++ [input])%list
         /\ closed (stream h') = closed (stream h)
         /\ aborted (stream h') = aborted (stream h)
         /\ console h' = console h).
Proof.
  unfold write, writable.
  destruct (closed (stream h) || broken (stream h)); [left | right]; split; auto.
  eexists; split; [reflexivity|]. cbn. auto.
Qed.

(** C9: [writeSSE] resolves the data before it produces anything and hands
    the finished frame to [write] in one call: when the deferred data is
    rejected, [writeSSE] throws the rejection reason and the host, stream
    included, is untouched; when the data resolves, [writeSSE] is exactly
    one call of [write] on the whole frame, and that call either fails
    leaving the host untouched or appends the frame as one chunk. *)
Theorem writeSSE_atomic (ev i : option string) (r : option Z) (h : Host) :
  (forall v,
     writeSSE (mkSSEMessage (DataPromise (Throw v)) ev i r) h = (Throw v, h))
  /\ (forall s,
        writeSSE (mkSSEMessage (DataPromise (Normal s)) ev i r) h
        = write (sseData (mkSSEMessage (DataPromise (Normal s)) ev i r) s) h)
  /\ (forall s,
        writeSSE (mkSSEMessage (DataString s) ev i r) h
        = write (sseData (mkSSEMessage (DataString s) ev i r) s) h)
  /\ (forall input,
        write input h = (Throw WriteError, h)
        \/ exists h', write input h = (Normal tt, h')
             /\ chunks (stream h') = (chunks (stream h) ++ [input])%list).
Proof.
  repeat split; try reflexivity.
  intros input. destruct (write_cases input h) as [[_ H]|[_ (h' & H & Hc & _)]].
  - now left.
  - right. now exists h'.
Qed.

(** ** The supervisor *)

(** C1: whatever the producer and the handler do (return, throw an
    [Error], throw anything else, fail on a write after a client abort),
    when [run] completes the stream's [closed] flag is true, the close
    statement has executed exactly once, and it was the last statement:
    the final host is the result of [close] on the host the earlier
    statements left. *)
Theorem run_closes_exactly_once
    (cb : Producer) (onError : option ErrorHandler) (h : Host) :
  closed (stream (final (run cb onError h))) = true
  /\ count_close (steps (run cb onError h)) = 1
  /\ exists before h',
       steps (run cb onError h) = (before ++ [StepClose])%list
       /\ count_close before = 0
       /\ close h' = (Normal tt, final (run cb onError h)).
Proof.
  run_unfold.
  destruct (cb h) as [[[]|e] h1]; cbn -[writeSSE].
  - repeat split. exists [StepProducer], h1. repeat split.
  - destruct e as [m|x]; [destruct onError as [f|]|].
    + destruct (f (JsError m) h1) as [[[]|v] h2]; cbn -[writeSSE].
      * destruct (writeSSE (error_message m) h2) as [c h3]; cbn.
        repeat split.
        exists [StepProducer; StepHandler (JsError m); StepWriteSSE (error_message m)], h3.
        repeat split.
      * repeat split.
        exists [StepProducer; StepHandler (JsError m)], h2. repeat split.
    + cbn. repeat split.
      exists [StepProducer; StepConsoleError (JsError m)],
             (mkHost (stream h1) (console h1 ++ [JsError m])%list).
      repeat split.
    + destruct onError; cbn; repeat split;
        exists [StepProducer; StepConsoleError (JsOther x)],
               (mkHost (stream h1) (console h1 ++ [JsOther x])%list);
        repeat split.
Qed.

(** The frame [run] writes for an error whose message is [m]. *)
Lemma error_frame (m : string) :
  sseData (error_message m) m
  = "event: error" ++ Js.nl ++ String.concat EmptyString (data_lines m) ++ Js.nl.
Proof.
  rewrite sseData_spec_frame. unfold spec_frame, error_message, event_line, id_line, retry_line.
  cbn [event id retry String.eqb Ascii.eqb Bool.eqb]. cbn [append].
  rewrite ?append_assoc. reflexivity.
Qed.

(** C3: when the producer throws an [Error] and a handler was supplied,
    [run] calls the handler with that error on the host the producer left;
    when the handler returns, [run] then calls [writeSSE] once with
    [{event: 'error', data: e.message}] and closes: the frame is the
    [event: error] line, the message as [data:] lines and a bare line
    feed, and on a stream that still accepts writes it is appended as the
    last chunk.  For [Error('boom')] the frame is [event: error],
    [data: boom] and an empty line. *)
Theorem handled_error_writes_frame
    (cb : Producer) (onError : ErrorHandler) (h h1 : Host) (m : string) :
  cb h = (Throw (JsError m), h1) ->
  (exists rest,
     steps (run cb (Some onError) h)
     = StepProducer :: StepHandler (JsError m) :: rest)
  /\ (forall h2,
        onError (JsError m) h1 = (Normal tt, h2) ->
        steps (run cb (Some onError) h)
        = [StepProducer; StepHandler (JsError m);
           StepWriteSSE (mkSSEMessage (DataString m) (Some "error") None None);
           StepClose]
        /\ result (run cb (Some onError) h) = fst (writeSSE (error_message m) h2)
        /\ close (snd (writeSSE (error_message m) h2))
           = (Normal tt, final (run cb (Some onError) h))
        /\ (writable (stream h2) = true ->
            result (run cb (Some onError) h) = Normal tt
            /\ chunks (stream (final (run cb (Some onError) h)))
               = (chunks (stream h2) ++ [sseData (error_message m) m])%list))
  /\ sseData (error_message m) m
     = "event: error" ++ Js.nl ++ String.concat EmptyString (data_lines m) ++ Js.nl
  /\ sseData (error_message "boom") "boom"
     = "event: error" ++ Js.nl ++ "data: boom" ++ Js.nl ++ Js.nl.
Proof.
  intros Hcb. split; [|split; [|split; [apply error_frame | reflexivity]]].
  - run_unfold. rewrite Hcb. cbn -[writeSSE].
    destruct (onError (JsError m) h1) as [[[]|v] h2]; cbn -[writeSSE].
    + destruct (writeSSE (error_message m) h2) as [c h3]. cbn. eexists; reflexivity.
    + eexists; reflexivity.
  - intros h2 Hh. run_unfold. rewrite Hcb. cbn -[writeSSE]. rewrite Hh. cbn -[writeSSE].
    destruct (writeSSE (error_message m) h2) as [c h3] eqn:Hw. cbn.
    split; [reflexivity|]. split; [reflexivity|]. split; [reflexivity|].
    intros Hopen.
    unfold writeSSE, error_message, bind, resolveCallback, ret in Hw.
    cbn [data] in Hw.
    destruct (write_cases (sseData (error_message m) m) h2)
      as [[Hc _]|[_ (h' & Hwr & Hch & _)]]; [congruence|].
    unfold error_message in Hwr. rewrite Hwr in Hw.
    injection Hw as <- <-. split; [reflexivity | exact Hch].
Qed.

Lemma handled_error_writes_frame_witness :
  steps (run (throwing_producer (JsError "boom")) (Some returning_handler) fresh)
  = [StepProducer; StepHandler (JsError "boom");
     StepWriteSSE (mkSSEMessage (DataString "boom") (Some "error") None None);
     StepClose]
  /\ chunks (stream (final (run (throwing_producer (JsError "boom"))
                                (Some returning_handler) fresh)))
     = ["event: error" ++ Js.nl ++ "data: boom" ++ Js.nl ++ Js.nl].
Proof.
  destruct (handled_error_writes_frame
              (throwing_producer (JsError "boom")) returning_handler
              fresh fresh "boom" eq_refl)
    as (_ & Hret & _).
  destruct (Hret fresh eq_refl) as (Hs & _ & _ & Hw).
  split; [exact Hs|]. exact (proj2 (Hw eq_refl)).
Defined.

(** C4, as the code has it: a thrown value that is not an [Error] is
    never surfaced to the client or to the handler, and [run] does not
    rethrow it, but it is not silent: with or without a handler the value
    is passed to [console.error], then the stream is closed. *)
Theorem unrecognized_value_logged
    (cb : Producer) (onError : option ErrorHandler) (h h1 : Host) (v : string) :
  cb h = (Throw (JsOther v), h1) ->
  steps (run cb onError h)
  = [StepProducer; StepConsoleError (JsOther v); StepClose]
  /\ result (run cb onError h) = Normal tt
  /\ console (final (run cb onError h)) = (console h1 ++ [JsOther v])%list
  /\ chunks (stream (final (run cb onError h))) = chunks (stream h1)
  /\ closed (stream (final (run cb onError h))) = true.
Proof.
  intros Hcb. run_unfold. rewrite Hcb.
  destruct onError; cbn; repeat split.
Qed.

Lemma unrecognized_value_logged_witness :
  steps (run (throwing_producer (JsOther "oops")) (Some returning_handler) fresh)
  = [StepProducer; StepConsoleError (JsOther "oops"); StepClose]
  /\ console (final (run (throwing_producer (JsOther "oops"))
                         (Some returning_handler) fresh))
     = [JsOther "oops"].
Proof.
  destruct (unrecognized_value_logged
              (throwing_producer (JsOther "oops")) (Some returning_handler)
              fresh fresh "oops" eq_refl)
    as (Hs & _ & Hc & _).
  split; [exact Hs | exact Hc].
Defined.

(** C4, as stated, fails: a producer that throws the non-[Error] value
    ['oops'] on a fresh session leaves that value on the diagnostic
    channel, with a handler and without one. *)
Lemma unrecognized_value_not_silent :
  console (final (run (throwing_producer (JsOther "oops")) None fresh))
  = [JsOther "oops"]
  /\ console (final (run (throwing_producer (JsOther "oops"))
                         (Some returning_handler) fresh))
     = [JsOther "oops"]
  /\ ~ unrecognized_silently_discarded.
Proof.
  split; [reflexivity|]. split; [reflexivity|].
  intros H.
  specialize (H (throwing_producer (JsOther "oops")) None fresh fresh "oops" eq_refl).
  discriminate H.
Qed.

(** C5: when the producer throws an [Error] and no handler was supplied,
    [run] passes the error to [console.error], completes normally (the
    error is swallowed), writes nothing to the stream, and closes it with
    [close], not [abort]. *)
Theorem unhandled_error_logged_and_swallowed
    (cb : Producer) (h h1 : Host) (m : string) :
  cb h = (Throw (JsError m), h1) ->
  steps (run cb None h)
  = [StepProducer; StepConsoleError (JsError m); StepClose]
  /\ result (run cb None h) = Normal tt
  /\ console (final (run cb None h)) = (console h1 ++ [JsError m])%list
  /\ chunks (stream (final (run cb None h))) = chunks (stream h1)
  /\ closed (stream (final (run cb None h))) = true
  /\ aborted (stream (final (run cb None h))) = aborted (stream h1).
Proof.
  intros Hcb. run_unfold. rewrite Hcb. cbn. repeat split.
Qed.

Lemma unhandled_error_logged_and_swallowed_witness :
  result (run (throwing_producer (JsError "boom")) None fresh) = Normal tt
  /\ console (final (run (throwing_producer (JsError "boom")) None fresh))
     = [JsError "boom"]
  /\ chunks (stream (final (run (throwing_producer (JsError "boom")) None fresh)))
     = []
  /\ closed (stream (final (run (throwing_producer (JsError "boom")) None fresh)))
     = true.
Proof.
  destruct (unhandled_error_logged_and_swallowed
              (throwing_producer (JsError "boom")) fresh fresh "boom" eq_refl)
    as (_ & Hr & Hc & Hw & Hcl & _).
  repeat split; assumption.
Defined.

(** C6: when the handler itself throws, [run] does not catch that value:
    it is the completion of [run]; the error frame is not written (the
    [writeSSE] statement does not execute and the chunks are as the handler
    left them); and the close statement still executes, last. *)
Theorem handler_failure_propagates
    (cb : Producer) (onError : ErrorHandler) (h h1 h2 : Host) (m : string)
    (v : JsValue) :
  cb h = (Throw (JsError m), h1) ->
  onError (JsError m) h1 = (Throw v, h2) ->
  result (run cb (Some onError) h) = Throw v
  /\ steps (run cb (Some onError) h)
     = [StepProducer; StepHandler (JsError m); StepClose]
  /\ chunks (stream (final (run cb (Some onError) h))) = chunks (stream h2)
  /\ console (final (run cb (Some onError) h)) = console h2
  /\ closed (stream (final (run cb (Some onError) h))) = true
  /\ close h2 = (Normal tt, final (run cb (Some onError) h)).
Proof.
  intros Hcb Hh. run_unfold. rewrite Hcb. cbn -[writeSSE]. rewrite Hh. cbn.
  repeat split.
Qed.

Lemma handler_failure_propagates_witness :
  result (run (throwing_producer (JsError "boom"))
              (Some (throwing_handler (JsOther "handler failed"))) fresh)
  = Throw (JsOther "handler failed")
  /\ chunks (stream (final (run (throwing_producer (JsError "boom"))
                                (Some (throwing_handler (JsOther "handler failed")))
                                fresh)))
     = []
  /\ closed (stream (final (run (throwing_producer (JsError "boom"))
                                (Some (throwing_handler (JsOther "handler failed")))
                                fresh)))
     = true.
Proof.
  destruct (handler_failure_propagates
              (throwing_producer (JsError "boom"))
              (throwing_handler (JsOther "handler failed"))
              fresh fresh fresh "boom" (JsOther "handler failed") eq_refl eq_refl)
    as (Hr & _ & Hw & _ & Hcl & _).
  repeat split; assumption.
Defined.

(** ** The remaining outcomes, on concrete sessions *)

(** A producer that returns normally: its frames stay, the stream closes. *)
Example normal_return :
  let r := run (writeSSE hello) None fresh in
  steps r = [StepProducer; StepClose]
  /\ result r = Normal tt
  /\ chunks (stream (final r)) = ["data: hello" ++ Js.nl ++ Js.nl]
  /\ closed (stream (final r)) = true.
Proof. cbv zeta. repeat split. Qed.

(** A client abort between two writes: the second write fails with a
    WriteError, one frame was written, the failure goes to the log, and
    the session ends closed. *)
Example client_abort_mid_write :
  let r := run (aborted_producer hello hello) None fresh in
  steps r = [StepProducer; StepConsoleError WriteError; StepClose]
  /\ result r = Normal tt
  /\ chunks (stream (final r)) = ["data: hello" ++ Js.nl ++ Js.nl]
  /\ console (final r) = [WriteError]
  /\ closed (stream (final r)) = true
  /\ aborted (stream (final r)) = true.
Proof. cbv zeta. repeat split. Qed.

(** ** The lines of a frame *)

Section FrameLines.

Lemma includes_app (a b : string) (c : ascii) :
  Js.includes (a ++ b) c = Js.includes a c || Js.includes b c.
Proof.
  induction a as [|x a IH]; simpl; [reflexivity|].
  now rewrite IH, orb_assoc.
Qed.

(** A piece free of line feeds, followed by a line feed, is the first
    line. *)
Lemma split_first_line (a b : string) :
  Js.includes a Js.LF = false ->
  Js.split (a ++ String Js.LF b) Js.LF = a :: Js.split b Js.LF.
Proof.
  induction a as [|x a IH]; intros H.
  - reflexivity.
  - simpl in H. apply orb_false_iff in H as [Hx Ha].
    simpl. rewrite Hx. fold Js.LF. rewrite (IH Ha). reflexivity.
Qed.

Lemma split_pieces_clean (s : string) :
  Forall (fun p => Js.includes p Js.LF = false) (Js.split s Js.LF).
Proof.
  induction s as [|x s IH]; simpl.
  - repeat constructor.
  - destruct (Ascii.eqb x Js.LF) eqn:E.
    + constructor; [reflexivity | exact IH].
    + destruct (Js.split s Js.LF) as [|p ps].
      * repeat constructor. simpl. now rewrite E.
      * inversion IH as [|? ? Hp Hps]; subst.
        constructor; [simpl; now rewrite E, Hp | exact Hps].
Qed.

Lemma split_data_block (ls : list string) (rest : string) :
  Forall (fun p => Js.includes p Js.LF = false) ls ->
  Js.split (String.concat EmptyString
              (map (fun line => "data: " ++ line ++ Js.nl) ls) ++ rest) Js.LF
  = (map (fun line => ("data: " ++ line)%string) ls ++ Js.split rest Js.LF)%list.
Proof.
  induction 1 as [|l ls Hl _ IH]; [reflexivity|].
  cbn [map]. rewrite concat_empty_cons, !append_assoc.
  change (Js.nl ++ ?x) with (String Js.LF x).
  rewrite <- (append_assoc "data: " l).
  rewrite split_first_line; [|rewrite includes_app, Hl; reflexivity].
  cbn [List.app]. now rewrite IH.
Qed.

Lemma digits_clean (d : uint) :
  Js.includes (NilEmpty.string_of_uint d) Js.LF = false.
Proof. induction d; simpl; auto. Qed.

Lemma Number_toString_clean (r : Z) :
  Js.includes (Js.Number_toString r) Js.LF = false.
Proof.
  assert (H : forall d, Js.includes (NilZero.string_of_uint d) Js.LF = false).
  { intros d. destruct d; try apply digits_clean. reflexivity. }
  unfold Js.Number_toString. destruct (Z.to_int r); simpl; apply H.
Qed.

Lemma payloads_app (a b : list string) :
  payloads (a ++ b) = (payloads a ++ payloads b)%list.
Proof.
  induction a as [|l a IH]; [reflexivity|].
  cbn [List.app payloads]. destruct (data_payload l); now rewrite IH.
Qed.

Lemma payloads_data (ls : list string) :
  payloads (map (fun line => "data: " ++ line) ls) = ls.
Proof.
  induction ls as [|l ls IH]; [reflexivity|].
  change (l :: payloads (map (fun line => "data: " ++ line) ls) = l :: ls).
  now rewrite IH.
Qed.

End FrameLines.

(** The lines of a frame whose event name and identifier stay on their
    line. *)
Lemma sseData_lines (message : SSEMessage) (dataStr : string) :
  single_line (event message) = true ->
  single_line (id message) = true ->
  lines_of (sseData message dataStr) = frame_lines message dataStr.
Proof.
  intros He Hi. unfold lines_of. rewrite sseData_spec_frame.
  unfold spec_frame, frame_lines, event_line, event_field, id_line, id_field,
    retry_line, retry_field, data_lines.
  assert (Hretry :
    Js.split (match retry message with
              | Some r => if Z.eqb r 0 then EmptyString
                          else "retry: " ++ Js.Number_toString r ++ Js.nl
              | None => EmptyString
              end ++ Js.nl) Js.LF
    = (match retry message with
       | Some r => if Z.eqb r 0 then []
                   else [("retry: " ++ Js.Number_toString r)%string]
       | None => []
       end ++ [EmptyString; EmptyString])%list).
  { destruct (retry message) as [r|]; [destruct (Z.eqb r 0)|]; try reflexivity.
    rewrite !append_assoc. change (Js.nl ++ ?x) with (String Js.LF x).
    rewrite <- (append_assoc "retry: ").
    rewrite split_first_line; [reflexivity|].
    rewrite includes_app, Number_toString_clean. reflexivity. }
  assert (Hid : forall rest,
    Js.split (match id message with
              | Some i => if String.eqb i EmptyString then EmptyString
                          else "id: " ++ i ++ Js.nl
              | None => EmptyString
              end ++ rest) Js.LF
    = (match id message with
       | Some i => if String.eqb i EmptyString then []
                   else [("id: " ++ i)%string]
       | None => []
       end ++ Js.split rest Js.LF)%list).
  { intros rest. unfold single_line in Hi.
    destruct (id message) as [i|]; [destruct (String.eqb i EmptyString)|];
      try reflexivity.
    apply negb_true_iff in Hi.
    rewrite !append_assoc. change (Js.nl ++ ?x) with (String Js.LF x).
    rewrite <- (append_assoc "id: ").
    rewrite split_first_line; [reflexivity|].
    rewrite includes_app, Hi. reflexivity. }
  assert (Hev : forall rest,
    Js.split (match event message with
              | Some e => if String.eqb e EmptyString then EmptyString
                          else "event: " ++ e ++ Js.nl
              | None => EmptyString
              end ++ rest) Js.LF
    = (match event message with
       | Some e => if String.eqb e EmptyString then []
                   else [("event: " ++ e)%string]
       | None => []
       end ++ Js.split rest Js.LF)%list).
  { intros rest. unfold single_line in He.
    destruct (event message) as [e|]; [destruct (String.eqb e EmptyString)|];
      try reflexivity.
    apply negb_true_iff in He.
    rewrite !append_assoc. change (Js.nl ++ ?x) with (String Js.LF x).
    rewrite <- (append_assoc "event: ").
    rewrite split_first_line; [reflexivity|].
    rewrite includes_app, He. reflexivity. }
  rewrite Hev, (split_data_block _ _ (split_pieces_clean dataStr)), Hid, Hretry.
  reflexivity.
Qed.

(** X1: when the event name and the identifier contain no line feed, the
    frame, cut at its line feeds, is exactly: the [event:] line if the
    event is non-empty, one [data: ] line per line of the data, the [id:]
    line if the identifier is non-empty, the [retry:] line if the retry is
    non-zero, and two empty pieces for the terminating blank line. *)
Theorem frame_line_structure (message : SSEMessage) (dataStr : string) :
  single_line (event message) = true ->
  single_line (id message) = true ->
  Js.split (sseData message dataStr) Js.LF
  = (event_field message
     ++ map (fun line => ("data: " ++ line)%string) (Js.split dataStr Js.LF)
     ++ id_field message ++ retry_field message
     ++ [EmptyString; EmptyString])%list
  /\ List.length (Js.split (sseData message dataStr) Js.LF)
     = List.length (event_field message) + (count_newlines dataStr + 1)
       + List.length (id_field message) + List.length (retry_field message) + 2.
Proof.
  intros He Hi. pose proof (sseData_lines message dataStr He Hi) as H.
  unfold lines_of, frame_lines in H. split; [exact H|].
  rewrite H, !length_app, length_map, split_length. cbn [List.length]. lia.
Qed.

Lemma frame_line_structure_witness :
  Js.split (sseData (mkSSEMessage (DataString "x") (Some "update") (Some "42")
                                  (Some 3000%Z))
                    ("a" ++ Js.nl ++ Js.nl ++ "b")) Js.LF
  = ["event: update"; "data: a"; "data: "; "data: b"; "id: 42"; "retry: 3000";
     EmptyString; EmptyString].
Proof.
  exact (proj1 (frame_line_structure
                  (mkSSEMessage (DataString "x") (Some "update") (Some "42")
                                (Some 3000%Z))
                  ("a" ++ Js.nl ++ Js.nl ++ "b") eq_refl eq_refl)).
Defined.

(** X2: the data survives the framing: when the event name and the
    identifier contain no line feed, collecting the payloads of the
    [data: ] lines of the frame and joining them with line feeds gives the
    data back, whatever the data contains. *)
Theorem data_round_trip (message : SSEMessage) (dataStr : string) :
  single_line (event message) = true ->
  single_line (id message) = true ->
  data_of_frame (sseData message dataStr) = dataStr.
Proof.
  intros He Hi. unfold data_of_frame.
  rewrite (sseData_lines message dataStr He Hi). unfold frame_lines.
  rewrite !payloads_app, payloads_data.
  assert (E : payloads (event_field message) = []).
  { unfold event_field. destruct (event message) as [e|];
      [destruct (String.eqb e EmptyString)|]; reflexivity. }
  assert (I : payloads (id_field message) = []).
  { unfold id_field. destruct (id message) as [i|];
      [destruct (String.eqb i EmptyString)|]; reflexivity. }
  assert (R : payloads (retry_field message) = []).
  { unfold retry_field. destruct (retry message) as [r|];
      [destruct (Z.eqb r 0)|]; reflexivity. }
  rewrite E, I, R. cbn [payloads data_payload List.app].
  rewrite app_nil_r. apply join_split.
Qed.

Lemma data_round_trip_witness :
  data_of_frame
    (sseData (mkSSEMessage (DataString "x") (Some "update") (Some "42") None)
             (Js.nl ++ "data: a" ++ Js.nl ++ Js.nl ++ "id: 1" ++ Js.nl))
  = Js.nl ++ "data: a" ++ Js.nl ++ Js.nl ++ "id: 1" ++ Js.nl.
Proof.
  exact (data_round_trip
           (mkSSEMessage (DataString "x") (Some "update") (Some "42") None)
           (Js.nl ++ "data: a" ++ Js.nl ++ Js.nl ++ "id: 1" ++ Js.nl)
           eq_refl eq_refl).
Defined.

(** The condition of the round trip is needed: a line feed in the event
    name forges a [data:] line. *)
Example forged_data_line :
  data_of_frame (sseData control_message "x") = "forged" ++ Js.nl ++ "x".
Proof. reflexivity. Qed.

(** The frame is some text followed by two line feeds. *)
Lemma sseData_blank_tail (message : SSEMessage) (dataStr : string) :
  exists body, sseData message dataStr = body ++ Js.nl ++ Js.nl.
Proof.
  rewrite sseData_spec_frame. unfold spec_frame.
  assert (D : exists b, String.concat EmptyString (data_lines dataStr) = b ++ Js.nl).
  { unfold data_lines. pose proof (split_not_nil dataStr Js.LF) as Hn.
    induction (Js.split dataStr Js.LF) as [|l ls IH]; [contradiction|].
    cbn [map]. rewrite concat_empty_cons. destruct ls as [|l' ls'].
    - exists ("data: " ++ l). cbn [map String.concat].
      now rewrite append_nil_r, !append_assoc.
    - destruct IH as [b Hb]; [discriminate|]. rewrite Hb.
      exists (("data: " ++ l ++ Js.nl) ++ b). now rewrite !append_assoc. }
  destruct D as [b Hb]. rewrite Hb.
  unfold retry_line, id_line.
  destruct (retry message) as [r|]; [destruct (Z.eqb r 0)|].
  2:{ exists (event_line message ++ (b ++ Js.nl)
              ++ match id message with
                 | Some i => if String.eqb i EmptyString then EmptyString
                             else "id: " ++ i ++ Js.nl
                 | None => EmptyString
                 end ++ "retry: " ++ Js.Number_toString r).
      now rewrite !append_assoc. }
  all: destruct (id message) as [i|]; [destruct (String.eqb i EmptyString)|].
  all: try (exists (event_line message ++ b);
            now rewrite ?append_assoc, ?append_nil_r).
  all: exists (event_line message ++ (b ++ Js.nl) ++ "id: " ++ i);
       now rewrite ?append_assoc, ?append_nil_r.
Qed.

(** X3: every frame, whatever its fields contain, ends with a line feed
    followed by a line feed: the blank line that terminates the event
    cannot be suppressed. *)
Theorem frame_ends_with_blank_line (message : SSEMessage) (dataStr : string) :
  exists body, sseData message dataStr = body ++ Js.nl ++ Js.nl.
Proof. apply sseData_blank_tail. Qed.

(** X4: when the event name and the identifier contain no line feed, the
    only empty line of a frame is its terminator: every line before it is
    non-empty, so a reader never sees the event end early, even when the
    data has empty lines. *)
Theorem no_blank_line_inside_frame (message : SSEMessage) (dataStr : string) :
  single_line (event message) = true ->
  single_line (id message) = true ->
  exists content,
    Js.split (sseData message dataStr) Js.LF
    = (content ++ [EmptyString; EmptyString])%list
    /\ Forall (fun line => line <> EmptyString) content.
Proof.
  intros He Hi. pose proof (sseData_lines message dataStr He Hi) as H.
  unfold lines_of, frame_lines in H. rewrite H.
  exists (event_field message
          ++ map (fun line => ("data: " ++ line)%string) (Js.split dataStr Js.LF)
          ++ id_field message ++ retry_field message)%list.
  split; [now rewrite <- !app_assoc|].
  repeat (apply Forall_app; split).
  - unfold event_field. destruct (event message) as [e|];
      [destruct (String.eqb e EmptyString)|]; repeat constructor; discriminate.
  - apply Forall_map, Forall_forall. intros l _. discriminate.
  - unfold id_field. destruct (id message) as [i|];
      [destruct (String.eqb i EmptyString)|]; repeat constructor; discriminate.
  - unfold retry_field. destruct (retry message) as [r|];
      [destruct (Z.eqb r 0)|]; repeat constructor; discriminate.
Qed.

Lemma no_blank_line_inside_frame_witness :
  exists content,
    Js.split (sseData hello (Js.nl ++ Js.nl)) Js.LF
    = (content ++ [EmptyString; EmptyString])%list
    /\ Forall (fun line => line <> EmptyString) content.
Proof.
  exact (no_blank_line_inside_frame hello (Js.nl ++ Js.nl) eq_refl eq_refl).
Defined.

(** X5: an empty event name and an empty identifier are dropped: the frame
    is the one of a message without that field. *)
Theorem empty_fields_are_absent
    (d : SSEData) (ev i : option string) (r : option Z) (dataStr : string) :
  sseData (mkSSEMessage d (Some EmptyString) i r) dataStr
  = sseData (mkSSEMessage d None i r) dataStr
  /\ sseData (mkSSEMessage d ev (Some EmptyString) r) dataStr
     = sseData (mkSSEMessage d ev None r) dataStr.
Proof. split; rewrite !sseData_spec_frame; reflexivity. Qed.

(** ** What [run] does and never does *)

(** The trace of [run], by outcome of the producer and of the handler. *)
Lemma run_steps (cb : Producer) (onError : option ErrorHandler) (h : Host) :
  steps (run cb onError h)
  = match cb h, onError with
    | (Normal _, _), _ => [StepProducer; StepClose]
    | (Throw (JsError m), h1), Some f =>
        match fst (f (JsError m) h1) with
        | Normal _ => [StepProducer; StepHandler (JsError m);
                       StepWriteSSE (error_message m); StepClose]
        | Throw _ => [StepProducer; StepHandler (JsError m); StepClose]
        end
    | (Throw e, _), _ => [StepProducer; StepConsoleError e; StepClose]
    end.
Proof.
  run_unfold.
  destruct (cb h) as [[[]|[m|x]] h1]; cbn -[writeSSE];
    try reflexivity; try (destruct onError; reflexivity).
  destruct onError as [f|]; [|reflexivity].
  destruct (f (JsError m) h1) as [[[]|v] h2]; cbn -[writeSSE]; [|reflexivity].
  destruct (writeSSE (error_message m) h2) as [c h3]. reflexivity.
Qed.

Lemma run_closed (cb : Producer) (onError : option ErrorHandler) (h : Host) :
  closed (stream (final (run cb onError h))) = true.
Proof. run_unfold. reflexivity. Qed.

(** X6: without a handler [run] always completes normally, whatever the
    producer throws; with one, [run] throws only on the handler path: the
    producer threw an [Error], and the thrown value comes from the handler
    or from the [writeSSE] of the error frame that follows it. *)
Theorem run_throws_only_on_handler_path
    (cb : Producer) (onError : option ErrorHandler) (h : Host) :
  result (run cb None h) = Normal tt
  /\ forall v, result (run cb onError h) = Throw v ->
       exists f m h1,
         onError = Some f /\ cb h = (Throw (JsError m), h1)
         /\ (fst (f (JsError m) h1) = Throw v
             \/ exists h2, f (JsError m) h1 = (Normal tt, h2)
                  /\ fst (writeSSE (error_message m) h2) = Throw v).
Proof.
  split.
  - run_unfold. destruct (cb h) as [[[]|[m|x]] h1]; reflexivity.
  - intros v. run_unfold.
    destruct (cb h) as [[[]|[m|x]] h1]; cbn -[writeSSE];
      try discriminate; try (destruct onError; discriminate).
    destruct onError as [f|]; [|discriminate].
    destruct (f (JsError m) h1) as [[[]|w] h2] eqn:Hf; cbn -[writeSSE].
    + destruct (writeSSE (error_message m) h2) as [c h3] eqn:Hw.
      cbn -[writeSSE]. intros ->. exists f, m, h1. repeat split.
      right. exists h2. split; [exact Hf|]. now rewrite Hw.
    + intros [= ->]. exists f, m, h1. repeat split.
      left. now rewrite Hf.
Qed.

Lemma run_throws_only_on_handler_path_witness :
  exists f m h1,
    Some (throwing_handler (JsOther "late")) = Some f
    /\ throwing_producer (JsError "boom") fresh = (Throw (JsError m), h1)
    /\ (fst (f (JsError m) h1) = Throw (JsOther "late")
        \/ exists h2, f (JsError m) h1 = (Normal tt, h2)
             /\ fst (writeSSE (error_message m) h2) = Throw (JsOther "late")).
Proof.
  exact (proj2 (run_throws_only_on_handler_path
                  (throwing_producer (JsError "boom"))
                  (Some (throwing_handler (JsOther "late"))) fresh)
               (JsOther "late") eq_refl).
Defined.

(** X7: when the producer returns normally, [run] does nothing but close:
    the handler is not called even if supplied, nothing is logged, no frame
    is written, and the final host is the producer's host after [close]. *)
Theorem normal_return_only_closes
    (cb : Producer) (onError : option ErrorHandler) (h h1 : Host) :
  cb h = (Normal tt, h1) ->
  steps (run cb onError h) = [StepProducer; StepClose]
  /\ result (run cb onError h) = Normal tt
  /\ close h1 = (Normal tt, final (run cb onError h))
  /\ chunks (stream (final (run cb onError h))) = chunks (stream h1)
  /\ console (final (run cb onError h)) = console h1.
Proof. intros Hcb. run_unfold. rewrite Hcb. repeat split. Qed.

Lemma normal_return_only_closes_witness :
  steps (run (writeSSE hello) (Some (throwing_handler (JsOther "unused"))) fresh)
  = [StepProducer; StepClose]
  /\ chunks (stream (final (run (writeSSE hello)
                                (Some (throwing_handler (JsOther "unused"))) fresh)))
     = ["data: hello" ++ Js.nl ++ Js.nl].
Proof.
  destruct (normal_return_only_closes
              (writeSSE hello) (Some (throwing_handler (JsOther "unused")))
              fresh (snd (writeSSE hello fresh)) eq_refl)
    as (Hs & _ & _ & Hc & _).
  split; [exact Hs | exact Hc].
Defined.

(** X8: the handler is called at most once, and exactly when one was
    supplied and the producer threw an [Error]; it receives that very
    error.  It is never called for a normal return or for a thrown value
    that is not an [Error]. *)
Theorem handler_called_only_for_producer_error
    (cb : Producer) (onError : option ErrorHandler) (h : Host) :
  handler_calls (steps (run cb onError h))
  = match onError, fst (cb h) with
    | Some _, Throw (JsError m) => [JsError m]
    | _, _ => []
    end.
Proof.
  rewrite run_steps.
  destruct (cb h) as [[[]|[m|x]] h1]; cbn [fst]; destruct onError as [f|];
    try reflexivity.
  destruct (fst (f (JsError m) h1)); reflexivity.
Qed.

(** X9: [run] calls [console.error] at most once, with the value the
    producer threw, and exactly when that value is not an [Error] or no
    handler was supplied.  With a handler, an [Error] is never logged by
    [run], and neither is what the handler or the error frame's write
    throws. *)
Theorem logging_rule
    (cb : Producer) (onError : option ErrorHandler) (h : Host) :
  logged_values (steps (run cb onError h))
  = match fst (cb h), onError with
    | Normal _, _ => []
    | Throw (JsError _), Some _ => []
    | Throw e, _ => [e]
    end.
Proof.
  rewrite run_steps.
  destruct (cb h) as [[[]|[m|x]] h1]; cbn [fst]; destruct onError as [f|];
    try reflexivity.
  destruct (fst (f (JsError m) h1)); reflexivity.
Qed.

(** X10: [run] itself asks for at most one frame, the error frame, and
    only after a supplied handler has returned from an [Error] of the
    producer; in every other case [run] writes nothing of its own. *)
Theorem run_requests_only_error_frame
    (cb : Producer) (onError : option ErrorHandler) (h : Host) :
  frames_requested (steps (run cb onError h))
  = match onError, cb h with
    | Some f, (Throw (JsError m), h1) =>
        match fst (f (JsError m) h1) with
        | Normal _ => [mkSSEMessage (DataString m) (Some "error") None None]
        | Throw _ => []
        end
    | _, _ => []
    end.
Proof.
  rewrite run_steps.
  destruct (cb h) as [[[]|[m|x]] h1]; destruct onError as [f|];
    try reflexivity.
  destruct (fst (f (JsError m) h1)); reflexivity.
Qed.

(** X11: once [run] has finished, a client abort that arrives later does
    nothing: the abort listener of [streamSSE] finds the stream closed and
    leaves the host as it is. *)
Theorem late_abort_is_ignored
    (cb : Producer) (onError : option ErrorHandler) (h : Host) :
  abort_listener (final (run cb onError h))
  = (Normal tt, final (run cb onError h)).
Proof. unfold abort_listener. now rewrite run_closed. Qed.

(** * Properties of the bundle-size report *)

(** ** [formatBytes] *)

Lemma hundredths_bounds (num den : Z) :
  (0 < den)%Z ->
  (- den < 2 * den * Bundle.hundredths num den - 200 * num <= den)%Z.
Proof.
  intros Hden. unfold Bundle.hundredths.
  pose proof (Z.div_mod (200 * num + den) (2 * den)) as Hdm.
  pose proof (Z.mod_pos_bound (200 * num + den) (2 * den)) as Hmod.
  lia.
Qed.

(** X12: a size from 1 KiB up to (not including) 1 MiB is printed in KB
    with two decimals, and the printed number is the size divided by 1024
    rounded to the nearest hundredth (upwards on a tie): it is off by at
    most half a hundredth, and lies between 1.00 and 1024.00. *)
Theorem formatBytes_kilobytes (bytes : Z) :
  (1024 <= bytes < 1024 * 1024)%Z ->
  exists n : Z,
    Bundle.formatBytes bytes
    = Js.Number_toString (n / 100) ++ "."
      ++ Js.Number_toString (n / 10 mod 10) ++ Js.Number_toString (n mod 10)
      ++ " KB"
    /\ (100 <= n <= 102400)%Z
    /\ (- 512 < 1024 * n - 100 * bytes <= 512)%Z.
Proof.
  intros Hb. exists (Bundle.hundredths bytes 1024).
  pose proof (hundredths_bounds bytes 1024 ltac:(lia)) as Hn.
  split; [|lia].
  unfold Bundle.formatBytes, Bundle.toFixed2, Bundle.fixed2.
  destruct (Z.eqb_spec bytes 0); [lia|].
  destruct (Z.ltb_spec bytes 1024); [lia|].
  destruct (Z.ltb_spec bytes (1024 * 1024)); [|lia].
  now rewrite !append_assoc.
Qed.

Lemma formatBytes_kilobytes_witness :
  exists n : Z,
    "1.50 KB"
    = Js.Number_toString (n / 100) ++ "."
      ++ Js.Number_toString (n / 10 mod 10) ++ Js.Number_toString (n mod 10)
      ++ " KB"
    /\ (100 <= n <= 102400)%Z
    /\ (- 512 < 1024 * n - 100 * 1536 <= 512)%Z.
Proof. exact (formatBytes_kilobytes 1536 ltac:(lia)). Defined.

(** X13: the last five sizes below 1 MiB are printed as [1024.00 KB]: the
    switch to MB is decided on the size, before rounding. *)
Theorem formatBytes_just_below_megabyte (bytes : Z) :
  (1024 * 1024 - 5 <= bytes < 1024 * 1024)%Z ->
  Bundle.formatBytes bytes = "1024.00 KB".
Proof.
  intros Hb.
  assert (H : (bytes = 1048571 \/ bytes = 1048572 \/ bytes = 1048573
               \/ bytes = 1048574 \/ bytes = 1048575)%Z) by lia.
  destruct H as [H|[H|[H|[H|H]]]]; subst bytes; reflexivity.
Qed.

Lemma formatBytes_just_below_megabyte_witness :
  Bundle.formatBytes 1048573 = "1024.00 KB"
  /\ Bundle.formatBytes 1048570 = "1023.99 KB"
  /\ Bundle.formatBytes 1048576 = "1.00 MB".
Proof.
  split; [exact (formatBytes_just_below_megabyte 1048573 ltac:(lia))|].
  split; reflexivity.
Defined.

(** X14: a size of 1 MiB or more is printed in MB with two decimals,
    however large it is (there is no larger unit), and the printed number
    is the size divided by 1048576 rounded to the nearest hundredth. *)
Theorem formatBytes_megabytes (bytes : Z) :
  (1024 * 1024 <= bytes)%Z ->
  Js.isSafeInteger bytes = true ->
  exists n : Z,
    Bundle.formatBytes bytes
    = Js.Number_toString (n / 100) ++ "."
      ++ Js.Number_toString (n / 10 mod 10) ++ Js.Number_toString (n mod 10)
      ++ " MB"
    /\ (100 <= n)%Z
    /\ (- 524288 < 1048576 * n - 100 * bytes <= 524288)%Z.
Proof.
  intros Hb _. exists (Bundle.hundredths bytes (1024 * 1024)).
  pose proof (hundredths_bounds bytes (1024 * 1024) ltac:(lia)) as Hn.
  split; [|lia].
  unfold Bundle.formatBytes, Bundle.toFixed2, Bundle.fixed2.
  destruct (Z.eqb_spec bytes 0); [lia|].
  destruct (Z.ltb_spec bytes 1024); [lia|].
  destruct (Z.ltb_spec bytes (1024 * 1024)); [lia|].
  now rewrite !append_assoc.
Qed.

Lemma formatBytes_megabytes_witness :
  exists n : Z,
    "5120.00 MB"
    = Js.Number_toString (n / 100) ++ "."
      ++ Js.Number_toString (n / 10 mod 10) ++ Js.Number_toString (n mod 10)
      ++ " MB"
    /\ (100 <= n)%Z
    /\ (- 524288 < 1048576 * n - 100 * 5368709120 <= 524288)%Z.
Proof.
  exact (formatBytes_megabytes 5368709120 ltac:(lia) eq_refl).
Defined.

(** ** [analyzeDist] *)

Section AnalyzeDist.

Variable n : Bundle.Node.

Lemma forEach_presets (dir : string) (ps : list string) (r : Bundle.Results)
    (out : list string) :
  exists out' r',
    Bundle.forEach ps (Bundle.preset_body n dir) r out = (out', Bundle.Returned r')
    /\ Bundle.total r'
       = (Bundle.total r
          + Bundle.sum (Bundle.sizes_found n
                          (map (fun f => Bundle.path_join n [dir; f]) ps)))%Z.
Proof.
  revert r out. induction ps as [|p ps IH]; intros r out.
  - exists out, r. split; [reflexivity|]. cbn. lia.
  - cbn [Bundle.forEach map Bundle.sizes_found].
    unfold Bundle.preset_body at 1, Bundle.getFileSize, Bundle.and_next.
    destruct (Bundle.statSync_size n (Bundle.path_join n [dir; p])) as [size|].
    + cbn [Bundle.console_log Bundle.pure].
      edestruct IH as (out' & r' & Hrun & Htot).
      exists out', r'. split; [exact Hrun|].
      rewrite Htot. unfold Bundle.sum. cbn [Bundle.total fold_right]. lia.
    + cbn [Bundle.pure]. apply IH.
Qed.

Lemma forEach_core (fs : list string) (r : Bundle.Results) (out : list string) :
  exists out' r',
    Bundle.forEach fs (Bundle.core_body n) r out = (out', Bundle.Returned r')
    /\ Bundle.total r'
       = (Bundle.total r
          + Bundle.sum (Bundle.sizes_found n
                          (map (fun f => Bundle.path_join n [Bundle.DIST_DIR n; f]) fs)))%Z.
Proof.
  revert r out. induction fs as [|p fs IH]; intros r out.
  - exists out, r. split; [reflexivity|]. cbn. lia.
  - cbn [Bundle.forEach map Bundle.sizes_found].
    unfold Bundle.core_body at 1, Bundle.getFileSize, Bundle.and_next.
    destruct (Bundle.statSync_size n (Bundle.path_join n [Bundle.DIST_DIR n; p]))
      as [size|].
    + cbn [Bundle.console_log Bundle.pure].
      edestruct IH as (out' & r' & Hrun & Htot).
      exists out', r'. split; [exact Hrun|].
      rewrite Htot. unfold Bundle.sum. cbn [Bundle.total fold_right]. lia.
    + cbn [Bundle.pure]. apply IH.
Qed.

Lemma forEach_middleware (dir : string) (ds : list string)
    (st : list (string * Z) * Bundle.Results) (out : list string) :
  exists st',
    Bundle.forEach ds (Bundle.middleware_body n dir) st out
    = (out, Bundle.Returned st')
    /\ Bundle.total (snd st') = Bundle.total (snd st).
Proof.
  revert st. induction ds as [|d ds IH]; intros [sizes r].
  - exists (sizes, r). split; reflexivity.
  - cbn [Bundle.forEach].
    unfold Bundle.middleware_body at 1, Bundle.getFileSize, Bundle.and_next.
    destruct (Bundle.statSync_size n (Bundle.path_join n [dir; d; "index.js"]))
      as [size|]; cbn [Bundle.pure].
    + edestruct IH as (st' & Hrun & Htot).
      exists st'. split; [exact Hrun | exact Htot].
    + apply IH.
Qed.

Lemma forEach_log (A : Type) (body : unit -> A -> Bundle.Script unit)
    (line : A -> string) (xs : list A) (out : list string) :
  (forall x o, body tt x o = Bundle.console_log (line x) o) ->
  Bundle.forEach xs body tt out = ((out ++ map line xs)%list, Bundle.Returned tt).
Proof.
  intros Hbody. revert out. induction xs as [|x xs IH]; intros out.
  - cbn. now rewrite app_nil_r.
  - cbn [Bundle.forEach map]. unfold Bundle.and_next. rewrite Hbody.
    unfold Bundle.console_log. rewrite IH, <- app_assoc. reflexivity.
Qed.

End AnalyzeDist.

(** The first [k] elements of a list sorted by decreasing size dominate
    the others. *)
Lemma sorted_prefix_dominates (k : nat) (l : list (string * Z)) :
  StronglySorted (fun a b => (snd b <= snd a)%Z) l ->
  forall x y, In x (firstn k l) -> In y (skipn k l) -> (snd y <= snd x)%Z.
Proof.
  intros Hs. revert k. induction Hs as [|a l Hs IH Ha]; intros k x y Hx Hy.
  - destruct k; contradiction.
  - destruct k as [|k]; [contradiction|].
    cbn [firstn skipn] in Hx, Hy. destruct Hx as [<-|Hx].
    + rewrite Forall_forall in Ha. apply Ha.
      rewrite <- (firstn_skipn k l). apply in_or_app. now right.
    + now apply (IH k).
Qed.

Lemma insert_desc_perm (x : string * Z) (l : list (string * Z)) :
  Permutation (x :: l) (Bundle.insert_desc x l).
Proof.
  induction l as [|y l IH]; cbn; [apply Permutation_refl|].
  destruct (snd y <=? snd x)%Z; [apply Permutation_refl|].
  eapply Permutation_trans; [apply perm_swap|]. now apply perm_skip.
Qed.

Lemma sort_desc_perm (l : list (string * Z)) :
  Permutation l (Bundle.sort_desc l).
Proof.
  induction l as [|x l IH]; cbn; [constructor|].
  eapply Permutation_trans; [apply perm_skip, IH | apply insert_desc_perm].
Qed.

Lemma insert_desc_sorted (x : string * Z) (l : list (string * Z)) :
  StronglySorted (fun a b => (snd b <= snd a)%Z) l ->
  StronglySorted (fun a b => (snd b <= snd a)%Z) (Bundle.insert_desc x l).
Proof.
  induction 1 as [|y l Hs IH Hy]; cbn.
  - repeat constructor.
  - destruct (Z.leb_spec (snd y) (snd x)) as [Hle|Hlt].
    + constructor; [now constructor|].
      constructor; [exact Hle|].
      rewrite Forall_forall in *. intros z Hz. specialize (Hy z Hz). lia.
    + constructor; [exact IH|].
      rewrite Forall_forall in *. intros z Hz.
      apply (Permutation_in _ (Permutation_sym (insert_desc_perm x l))) in Hz.
      destruct Hz as [<-|Hz]; [lia | now apply Hy].
Qed.

Lemma sort_desc_sorted (l : list (string * Z)) :
  StronglySorted (fun a b => (snd b <= snd a)%Z) (Bundle.sort_desc l).
Proof.
  induction l as [|x l IH]; cbn; [constructor | now apply insert_desc_sorted].
Qed.

(** X15: the total of the report is the sum of the sizes of the preset
    files (the [.js] entries of [dist/preset]) and of the four core files
    that could be read; the sizes of the middleware directories are
    recorded and listed but never added to the total. *)
Theorem analyzeDist_total_excludes_middleware
    (n : Bundle.Node) (out : list string) (results : Bundle.Results) :
  (forall p size, Bundle.statSync_size n p = Some size -> (0 <= size)%Z) ->
  Js.isSafeInteger (Bundle.sum (Bundle.sizes_found n (Bundle.preset_paths n))
                    + Bundle.sum (Bundle.sizes_found n (Bundle.core_paths n))) = true ->
  Bundle.analyzeDist n [] = (out, Bundle.Returned results) ->
  Bundle.total results
  = (Bundle.sum (Bundle.sizes_found n (Bundle.preset_paths n))
     + Bundle.sum (Bundle.sizes_found n (Bundle.core_paths n)))%Z.
Proof.
  intros _ _. unfold Bundle.analyzeDist, Bundle.preset_paths, Bundle.core_paths.
  unfold Bundle.and_next at 1. cbn [Bundle.console_log].
  unfold Bundle.and_next at 1.
  destruct (Bundle.existsSync n (Bundle.DIST_DIR n)); cbn [negb];
    [|cbn; discriminate].
  cbn [Bundle.pure]. unfold Bundle.and_next at 1.
  set (presetDir := Bundle.path_join n [Bundle.DIST_DIR n; "preset"]).
  set (r0 := Bundle.mkResults [] [] [] [] 0).
  set (out0 := ([] ++ _)%list).
  match goal with
  | |- context [(if Bundle.existsSync n presetDir then ?a else ?b) out0] =>
      set (piece := if Bundle.existsSync n presetDir then a else b)
  end.
  assert (Hp :
    (exists out1 r1,
       piece out0 = (out1, Bundle.Returned r1)
       /\ Bundle.total r1
          = Bundle.sum (Bundle.sizes_found n
              (if Bundle.existsSync n presetDir
               then match Bundle.readdirSync n presetDir with
                    | Some entries =>
                        map (fun f => Bundle.path_join n [presetDir; f])
                            (filter (fun f => Bundle.endsWith f ".js") entries)
                    | None => []
                    end
               else [])))
    \/ (exists out1, piece out0 = (out1, Bundle.Threw))).
  { subst piece. destruct (Bundle.existsSync n presetDir).
    - unfold Bundle.and_next at 1, Bundle.readdir.
      destruct (Bundle.readdirSync n presetDir) as [entries|].
      + left. unfold Bundle.and_next at 1. cbn [Bundle.console_log].
        unfold Bundle.and_next at 1.
        destruct (forEach_presets n presetDir
                    (filter (fun f => Bundle.endsWith f ".js") entries) r0
                    (out0 ++ [(Bundle.bright ++ "Presets:" ++ Bundle.reset)%string])%list)
          as (o & r1 & Hrun & Htot).
        rewrite Hrun. cbn. eexists _, r1. split; [reflexivity|].
        rewrite Htot. reflexivity.
      + right. eexists. reflexivity.
    - left. exists out0, r0. split; reflexivity. }
  clearbody piece.
  destruct Hp as [(out1 & r1 & Hrun & Htot)|[out1 Hrun]]; rewrite Hrun;
    [|discriminate].
  unfold Bundle.and_next at 1. cbn [Bundle.console_log].
  unfold Bundle.and_next at 1.
  destruct (forEach_core n Bundle.coreFiles r1
              (out1 ++ [(Bundle.bright ++ "Core Modules:" ++ Bundle.reset)%string])%list)
    as (out2 & r2 & Hrun2 & Htot2).
  rewrite Hrun2. unfold Bundle.and_next at 1. cbn [Bundle.console_log].
  unfold Bundle.and_next at 1.
  set (middlewareDir := Bundle.path_join n [Bundle.DIST_DIR n; "middleware"]).
  destruct (Bundle.existsSync n middlewareDir).
  - unfold Bundle.and_next at 1, Bundle.readdir.
    destruct (Bundle.readdirSync n middlewareDir) as [ds|]; [|discriminate].
    unfold Bundle.and_next at 1. cbn [Bundle.console_log].
    unfold Bundle.and_next at 1.
    destruct (forEach_middleware n middlewareDir ds ([], r2)
                ((out2 ++ [EmptyString]) ++ [(Bundle.bright ++ "Middleware (Top 10):" ++ Bundle.reset)%string])%list)
      as ([sizes r3] & Hrun3 & Htot3).
    rewrite Hrun3. unfold Bundle.and_next at 1.
    rewrite (forEach_log _ _
               (fun entry : string * Z =>
                  let (name, size) := entry in
                  "  " ++ Bundle.padEnd name 20 ++ Bundle.formatBytes size));
      [|intros [name size] o; reflexivity].
    cbn. intros [= _ <-].
    cbn [snd] in Htot3. rewrite Htot3, Htot2, Htot. reflexivity.
  - cbn. intros [= _ <-]. rewrite Htot2, Htot. reflexivity.
Qed.


Lemma analyzeDist_total_excludes_middleware_witness :
  exists out results,
    Bundle.analyzeDist Sample.node [] = (out, Bundle.Returned results)
    /\ Bundle.total results = 32500%Z
    /\ Bundle.obj_get "jwt" (Bundle.middleware results) = Some 9000%Z.
Proof.
  destruct (Bundle.analyzeDist Sample.node []) as [out [results| |]] eqn:E;
    [|vm_compute in E; discriminate E ..].
  exists out, results. split; [reflexivity|]. split.
  - refine (analyzeDist_total_excludes_middleware Sample.node out results _ eq_refl E).
    intros p size. cbn.
    repeat (destruct (String.eqb p _); [intros [= <-]; lia|]).
    discriminate.
  - vm_compute in E. injection E as _ <-. reflexivity.
Defined.

Lemma firstn_sorted (k : nat) (l : list (string * Z)) :
  StronglySorted (fun a b => (snd b <= snd a)%Z) l ->
  StronglySorted (fun a b => (snd b <= snd a)%Z) (firstn k l).
Proof.
  intros Hs. revert k. induction Hs as [|a l Hs IH Ha]; intros [|k]; cbn;
    try constructor.
  - apply IH.
  - rewrite Forall_forall in *. intros x Hx. apply Ha.
    rewrite <- (firstn_skipn k l). apply in_or_app. now left.
Qed.

(** X16: the middleware listed under "Top 10" are the ten largest that
    could be read (all of them when there are fewer), largest first: the
    list has [min 10 n] entries, is sorted by decreasing size, and every
    entry left out is no larger than any entry shown. *)
Theorem top10_are_the_largest (sizes : list (string * Z)) :
  List.length (Bundle.top10 sizes) = Nat.min 10 (List.length sizes)
  /\ StronglySorted (fun a b => (snd b <= snd a)%Z) (Bundle.top10 sizes)
  /\ exists rest,
       Permutation sizes (Bundle.top10 sizes ++ rest)
       /\ forall shown omitted,
            In shown (Bundle.top10 sizes) -> In omitted rest ->
            (snd omitted <= snd shown)%Z.
Proof.
  unfold Bundle.top10. split; [|split].
  - rewrite length_firstn, <- (Permutation_length (sort_desc_perm sizes)).
    reflexivity.
  - apply firstn_sorted, sort_desc_sorted.
  - exists (skipn 10 (Bundle.sort_desc sizes)). split.
    + rewrite firstn_skipn. apply sort_desc_perm.
    + apply sorted_prefix_dominates, sort_desc_sorted.
Qed.

Lemma top10_are_the_largest_witness :
  Bundle.top10 Sample.middleware_sizes
  = [("jwt", 9000%Z); ("cors", 3000%Z); ("etag", 3000%Z)]
  /\ exists rest,
       Permutation Sample.middleware_sizes
                   (Bundle.top10 Sample.middleware_sizes ++ rest)
       /\ forall shown omitted,
            In shown (Bundle.top10 Sample.middleware_sizes) -> In omitted rest ->
            (snd omitted <= snd shown)%Z.
Proof.
  split; [reflexivity|].
  exact (proj2 (proj2 (top10_are_the_largest Sample.middleware_sizes))).
Defined.

(** ** [identifyOptimizations] *)

Section Opportunities.

Variable n : Bundle.Node.

Lemma types_check_cases (opps opps' : list Bundle.Opportunity)
    (out out' : list string) :
  Bundle.types_check n opps out = (out', Bundle.Returned opps') ->
  (opps' = opps
   /\ (Bundle.existsSync n (Bundle.typesPath n) = false
       \/ exists content, Bundle.readFileSync n (Bundle.typesPath n) = Some content
            /\ (Bundle.line_count content <= 2000)%nat))
  \/ (exists content,
        Bundle.existsSync n (Bundle.typesPath n) = true
        /\ Bundle.readFileSync n (Bundle.typesPath n) = Some content
        /\ (2000 < Bundle.line_count content)%nat
        /\ opps' = (opps ++ [Bundle.types_entry content])%list).
Proof.
  unfold Bundle.types_check. fold (Bundle.typesPath n).
  destruct (Bundle.existsSync n (Bundle.typesPath n)) eqn:He.
  - unfold Bundle.and_next, Bundle.readFile.
    destruct (Bundle.readFileSync n (Bundle.typesPath n)) as [content|]; [|discriminate].
    destruct (Nat.ltb_spec 2000 (Bundle.line_count content)) as [Hlt|Hle];
      cbn [Bundle.pure]; intros [= _ <-].
    + right. exists content. repeat split; assumption.
    + left. split; [reflexivity|]. right. exists content. split; [reflexivity|lia].
  - cbn [Bundle.pure]. intros [= _ <-]. left. split; [reflexivity | now left].
Qed.

Lemma middleware_check_later (dir mdir : string)
    (opps opps' : list Bundle.Opportunity) (out out' : list string) :
  Bundle.middleware_check n mdir opps dir out = (out', Bundle.Returned opps') ->
  exists extra, opps' = (opps ++ extra)%list /\ Forall Bundle.later_entry extra.
Proof.
  unfold Bundle.middleware_check.
  destruct (Bundle.existsSync n _).
  - unfold Bundle.and_next, Bundle.readFile.
    destruct (Bundle.readFileSync n _) as [content|]; [|discriminate].
    destruct (300 <? Bundle.line_count content)%nat; cbn [Bundle.pure];
      intros [= _ <-].
    + eexists. split; [reflexivity|]. constructor; [|constructor].
      split; [reflexivity|]. right. now exists dir.
    + exists []. split; [now rewrite app_nil_r | constructor].
  - cbn [Bundle.pure]. intros [= _ <-].
    exists []. split; [now rewrite app_nil_r | constructor].
Qed.

Lemma forEach_middleware_check (mdir : string) (dirs : list string)
    (opps opps' : list Bundle.Opportunity) (out out' : list string) :
  Bundle.forEach dirs (Bundle.middleware_check n mdir) opps out
  = (out', Bundle.Returned opps') ->
  exists extra, opps' = (opps ++ extra)%list /\ Forall Bundle.later_entry extra.
Proof.
  revert opps out. induction dirs as [|d dirs IH]; intros opps out.
  - cbn. intros [= _ <-]. exists []. split; [now rewrite app_nil_r | constructor].
  - cbn [Bundle.forEach]. unfold Bundle.and_next at 1.
    destruct (Bundle.middleware_check n mdir opps d out) as [o1 [r1| |]] eqn:E1;
      try discriminate.
    intros H. apply IH in H as (e2 & -> & H2).
    apply middleware_check_later in E1 as (e1 & -> & H1).
    exists (e1 ++ e2)%list. split; [now rewrite app_assoc|].
    apply Forall_app. now split.
Qed.

Lemma intrinsic_check_later (opps opps' : list Bundle.Opportunity)
    (out out' : list string) :
  Bundle.intrinsic_check n opps out = (out', Bundle.Returned opps') ->
  exists extra, opps' = (opps ++ extra)%list /\ Forall Bundle.later_entry extra.
Proof.
  unfold Bundle.intrinsic_check.
  destruct (Bundle.existsSync n _).
  - unfold Bundle.and_next, Bundle.readFile.
    destruct (Bundle.readFileSync n _) as [content|]; [|discriminate].
    destruct (800 <? Bundle.line_count content)%nat; cbn [Bundle.pure];
      intros [= _ <-].
    + eexists. split; [reflexivity|]. constructor; [|constructor].
      split; [reflexivity|]. now left.
    + exists []. split; [now rewrite app_nil_r | constructor].
  - cbn [Bundle.pure]. intros [= _ <-].
    exists []. split; [now rewrite app_nil_r | constructor].
Qed.

(** The array [opportunities]: what the check of [types.ts] gave, then
    entries of the two later checks. *)
Lemma collect_opportunities_shape (opps : list Bundle.Opportunity)
    (out out' : list string) :
  Bundle.collect_opportunities n out = (out', Bundle.Returned opps) ->
  exists first later,
    opps = (first ++ later)%list
    /\ Forall Bundle.later_entry later
    /\ ((first = []
         /\ (Bundle.existsSync n (Bundle.typesPath n) = false
             \/ exists content, Bundle.readFileSync n (Bundle.typesPath n) = Some content
                  /\ (Bundle.line_count content <= 2000)%nat))
        \/ exists content,
             Bundle.existsSync n (Bundle.typesPath n) = true
             /\ Bundle.readFileSync n (Bundle.typesPath n) = Some content
             /\ (2000 < Bundle.line_count content)%nat
             /\ first = [Bundle.types_entry content]).
Proof.
  unfold Bundle.collect_opportunities. unfold Bundle.and_next at 1.
  destruct (Bundle.types_check n [] out) as [o1 [first| |]] eqn:E1;
    try discriminate.
  unfold Bundle.and_next at 1.
  set (mdir := Bundle.path_join n [Bundle.SRC_DIR n; "middleware"]).
  destruct ((if Bundle.existsSync n mdir
             then Bundle.and_next (Bundle.readdir n mdir)
                    (fun middleware =>
                       Bundle.forEach middleware (Bundle.middleware_check n mdir) first)
             else Bundle.pure first) o1) as [o2 [r2| |]] eqn:E2; try discriminate.
  intros E3. apply intrinsic_check_later in E3 as (e3 & -> & H3).
  assert (M : exists e2, r2 = (first ++ e2)%list /\ Forall Bundle.later_entry e2).
  { destruct (Bundle.existsSync n mdir).
    - unfold Bundle.and_next, Bundle.readdir in E2.
      destruct (Bundle.readdirSync n mdir) as [dirs|]; [|discriminate].
      now apply forEach_middleware_check in E2.
    - cbn in E2. injection E2 as _ <-.
      exists []. split; [now rewrite app_nil_r | constructor]. }
  destruct M as (e2 & -> & H2).
  exists first, (e2 ++ e3)%list. split; [now rewrite app_assoc|].
  split; [apply Forall_app; now split|].
  apply types_check_cases in E1 as [[-> H]|(content & He & Hr & Hlt & ->)].
  - left. split; [reflexivity | exact H].
  - right. exists content. repeat split; assumption.
Qed.

End Opportunities.

(** X17: no opportunity ever has priority High: every entry is Medium or
    Low, so the red colour of the listing is never chosen; an entry is
    printed in yellow or in blue. *)
Theorem opportunities_never_high
    (n : Bundle.Node) (out out' : list string) (opps : list Bundle.Opportunity) :
  Bundle.collect_opportunities n out = (out', Bundle.Returned opps) ->
  Forall (fun o =>
            (Bundle.priority o = "Medium" /\ Bundle.priorityColor o = Bundle.yellow
             \/ Bundle.priority o = "Low" /\ Bundle.priorityColor o = Bundle.blue)
            /\ Bundle.priority o <> "High"
            /\ Bundle.priorityColor o <> Bundle.red) opps.
Proof.
  intros H. apply collect_opportunities_shape in H
    as (first & later & -> & Hl & Hf).
  apply Forall_app. split.
  - destruct Hf as [[-> _]|(content & _ & _ & _ & ->)]; [constructor|].
    constructor; [|constructor].
    split; [left; split; reflexivity|]. split; discriminate.
  - eapply Forall_impl; [|exact Hl].
    intros o [Hp _]. unfold Bundle.priorityColor. rewrite Hp.
    split; [right; split; reflexivity|]. split; discriminate.
Qed.

Lemma opportunities_never_high_witness :
  exists out opps,
    Bundle.collect_opportunities Sample.node [] = (out, Bundle.Returned opps)
    /\ List.length opps = 1
    /\ Forall (fun o => Bundle.priority o <> "High"
                        /\ Bundle.priorityColor o <> Bundle.red) opps.
Proof.
  destruct (Bundle.collect_opportunities Sample.node []) as [out [opps| |]] eqn:E;
    [|vm_compute in E; discriminate E ..].
  exists out, opps. split; [reflexivity|]. split.
  - vm_compute in E. injection E as _ <-. reflexivity.
  - eapply Forall_impl; [|exact (opportunities_never_high Sample.node [] out opps E)].
    intros o (_ & H1 & H2). now split.
Defined.

(** X18: [types.ts] is reported exactly when it contains at least 2000
    line feeds, and the report counts one line more than there are line
    feeds: a file of 2000 lines that each end with a line feed is reported
    as 2001 lines.  When it is reported, its entry is the first of the
    list; otherwise no entry concerns it. *)
Theorem types_reported_from_2000_line_feeds
    (n : Bundle.Node) (content : string) (out out' : list string)
    (opps : list Bundle.Opportunity) :
  Bundle.existsSync n (Bundle.path_join n [Bundle.SRC_DIR n; "types.ts"]) = true ->
  Bundle.readFileSync n (Bundle.path_join n [Bundle.SRC_DIR n; "types.ts"])
  = Some content ->
  Bundle.collect_opportunities n out = (out', Bundle.Returned opps) ->
  (2000 <= count_newlines content ->
   hd_error opps
   = Some (Bundle.mkOpportunity "Medium" "Type Definitions"
             ("types.ts is "
              ++ Js.Number_toString (Z.of_nat (count_newlines content + 1))
              ++ " lines. Consider splitting into smaller type files for better IDE performance.")))
  /\ (count_newlines content < 2000 ->
      Forall (fun o => Bundle.area o <> "Type Definitions") opps).
Proof.
  intros He Hr H. apply collect_opportunities_shape in H
    as (first & later & -> & Hl & Hf).
  assert (Hlater : Forall (fun o => Bundle.area o <> "Type Definitions") later).
  { eapply Forall_impl; [|exact Hl].
    intros o [_ [Ha|[dir Ha]]]; rewrite Ha; discriminate. }
  unfold Bundle.line_count, Bundle.typesPath in Hf. split.
  - intros Hge.
    destruct Hf as [[_ [Hf|(c & Hc & Hle)]]|(c & _ & Hc & _ & ->)].
    + congruence.
    + rewrite Hr in Hc. injection Hc as <-. rewrite split_length in Hle. lia.
    + rewrite Hr in Hc. injection Hc as <-.
      cbn [List.app hd_error]. unfold Bundle.types_entry, Bundle.show_count, Bundle.line_count.
      now rewrite split_length.
  - intros Hlt.
    destruct Hf as [[-> _]|(c & _ & Hc & Hgt & ->)]; [exact Hlater|].
    rewrite Hr in Hc. injection Hc as <-. rewrite split_length in Hgt. lia.
Qed.

Lemma types_reported_from_2000_line_feeds_witness :
  exists out opps,
    Bundle.collect_opportunities Sample.node [] = (out, Bundle.Returned opps)
    /\ count_newlines (Bundle.blank_lines 2000) = 2000
    /\ hd_error opps
       = Some (Bundle.mkOpportunity "Medium" "Type Definitions"
                 "types.ts is 2001 lines. Consider splitting into smaller type files for better IDE performance.").
Proof.
  destruct (Bundle.collect_opportunities Sample.node []) as [out [opps| |]] eqn:E;
    [|vm_compute in E; discriminate E ..].
  exists out, opps. split; [reflexivity|]. split; [vm_compute; reflexivity|].
  assert (H2000 : 2000 <= count_newlines (Bundle.blank_lines 2000))
    by (vm_compute; apply Nat.leb_le; reflexivity).
  exact (proj1 (types_reported_from_2000_line_feeds
                  Sample.node (Bundle.blank_lines 2000) [] out opps
                  eq_refl eq_refl E) H2000).
Defined.

(** ** Frames on the wire *)

Lemma split_app_LF (a b : string) :
  Js.split (a ++ String Js.LF b) Js.LF
  = (Js.split a Js.LF ++ Js.split b Js.LF)%list.
Proof.
  induction a as [|x a IH]; [reflexivity|].
  cbn [append Js.split]. rewrite IH.
  destruct (Ascii.eqb x Js.LF); [reflexivity|].
  pose proof (split_not_nil a Js.LF) as Hn.
  destruct (Js.split a Js.LF); [contradiction | reflexivity].
Qed.

(** X19: frames compose on the wire: the text that follows a frame starts
    on a fresh line, after exactly one empty line.  Cut at line feeds, a
    frame followed by any text is the lines of the frame's content, one
    empty line, and the lines of that text. *)
Theorem frames_separated_by_one_blank_line
    (message : SSEMessage) (dataStr rest : string) :
  exists content,
    Js.split (sseData message dataStr) Js.LF
    = (content ++ [EmptyString; EmptyString])%list
    /\ Js.split (sseData message dataStr ++ rest) Js.LF
       = (content ++ [EmptyString] ++ Js.split rest Js.LF)%list.
Proof.
  destruct (sseData_blank_tail message dataStr) as [body Hbody].
  exists (Js.split body Js.LF).
  rewrite Hbody. split.
  - change (body ++ Js.nl ++ Js.nl)
      with (body ++ String Js.LF (String Js.LF EmptyString)).
    rewrite split_app_LF. reflexivity.
  - rewrite !append_assoc.
    change (body ++ Js.nl ++ Js.nl ++ rest)
      with (body ++ String Js.LF (String Js.LF rest)).
    rewrite split_app_LF. reflexivity.
Qed.
